(** * CodAlarm: the state machine, timing engine and buzzer of main.cpp

    A shallow embedding of [src/CodAlarm/main.cpp].  The globals of the
    translation unit ([ca], [backlight_counter], [buzzer_counter],
    [buzzer_state]) and the one hardware register the file writes after
    start-up ([TIMSK2]) are gathered in the record [Device]; every handler
    and interrupt service routine is a function [Device -> Device]. *)

From Stdlib Require Import ZArith List Bool Lia.
Import ListNotations.
Open Scope Z_scope.

(** ** Enumerations *)

Inductive DeviceState : Type :=
  | IDLE | SET_ALARM1 | SET_ALARM2 | SET_CLOCK1 | SET_CLOCK2 | RING.

Inductive Mode : Type := H12 | H24.

(** The button identifiers main() registers listeners for. *)
Inductive Button : Type :=
  | SET_ALARM | UP | DOWN | MODE | SNOOZE | STOP_ALARM.

(** [ca.state == X] *)
Definition state_eqb (a b : DeviceState) : bool :=
  match a, b with
  | IDLE, IDLE | SET_ALARM1, SET_ALARM1 | SET_ALARM2, SET_ALARM2
  | SET_CLOCK1, SET_CLOCK1 | SET_CLOCK2, SET_CLOCK2 | RING, RING => true
  | _, _ => false
  end.

Definition button_eqb (a b : Button) : bool :=
  match a, b with
  | SET_ALARM, SET_ALARM | UP, UP | DOWN, DOWN | MODE, MODE
  | SNOOZE, SNOOZE | STOP_ALARM, STOP_ALARM => true
  | _, _ => false
  end.

(** ** What the absent headers supply

    [core/CodAlarm.h] and [core/Clock.h] are absent.  The three durations
    (as the values stored in the [int] countdowns) and the integer values
    of the [DeviceState] enumerators are taken as parameters, and class
    [Clock] as an interface.  The countdowns are only decremented while
    strictly positive, so they never leave the range of [int]. *)

Record Platform : Type := mkPlatform {
  N_BUZZER_LONG : Z;
  N_BUZZER_SHORT : Z;
  N_BACKLIGHT : Z;
  (** the integer an enumerator converts to, as in [if (ca.state = RING)] *)
  state_code : DeviceState -> Z
}.

(** The methods of class [Clock] that main.cpp calls.  The receiver is the
    last argument; [sync self other] is [self.sync(other)]. *)
Class ClockOps (T : Type) : Type := {
  tick : T -> T;
  setHour : Z -> T -> T;
  setMin : Z -> T -> T;
  sync : T -> T -> T;
  getValue : T -> Z
}.

Definition BACKLIGHT_OFF : Z := -1.
Definition BUZZER_OFF : Z := -1.

(** Bit index of the compare-match-A interrupt enable (avr/io.h gives
    OCIE1A the value 1). *)
Definition OCIE1A : Z := 1.

(** Modelled from the spec: the macros SET_BIT and UNSET_BIT are defined in
    a header that is absent; startBuzzer "arms the buzzer-pulse source" and
    stopBuzzer "disarms" it, so they set and clear one bit of the register. *)
Definition SET_BIT (reg bit : Z) : Z := Z.lor reg (Z.shiftl 1 bit).
Definition UNSET_BIT (reg bit : Z) : Z := Z.land reg (Z.lnot (Z.shiftl 1 bit)).

(** ** The device *)

Record Device (T : Type) : Type := mkDevice {
  ca_state : DeviceState;
  ca_snoozed : bool;
  ca_mode : Mode;
  ca_clock : T;
  ca_alarm : T;
  ca_snooze : T;
  (** level of the on/off switch, read by [ca.io.getSwitch()] *)
  io_switch : bool;
  (** illumination output, written by [ca.io.setLight] *)
  io_light : bool;
  (** number of [ca.io.buzz()] pulses sent so far *)
  io_buzz : nat;
  TIMSK2 : Z;
  backlight_counter : Z;
  buzzer_counter : Z;
  buzzer_state : bool
}.

Arguments mkDevice {T}.
Arguments ca_state {T}.
Arguments ca_snoozed {T}.
Arguments ca_mode {T}.
Arguments ca_clock {T}.
Arguments ca_alarm {T}.
Arguments ca_snooze {T}.
Arguments io_switch {T}.
Arguments io_light {T}.
Arguments io_buzz {T}.
Arguments TIMSK2 {T}.
Arguments backlight_counter {T}.
Arguments buzzer_counter {T}.
Arguments buzzer_state {T}.

Section Assignments.
Context {T : Type}.
Implicit Type d : Device T.

Definition set_state (s : DeviceState) d : Device T :=
  mkDevice s (ca_snoozed d) (ca_mode d) (ca_clock d) (ca_alarm d)
    (ca_snooze d) (io_switch d) (io_light d) (io_buzz d) (TIMSK2 d)
    (backlight_counter d) (buzzer_counter d) (buzzer_state d).

Definition set_snoozed (b : bool) d : Device T :=
  mkDevice (ca_state d) b (ca_mode d) (ca_clock d) (ca_alarm d)
    (ca_snooze d) (io_switch d) (io_light d) (io_buzz d) (TIMSK2 d)
    (backlight_counter d) (buzzer_counter d) (buzzer_state d).

Definition set_mode (m : Mode) d : Device T :=
  mkDevice (ca_state d) (ca_snoozed d) m (ca_clock d) (ca_alarm d)
    (ca_snooze d) (io_switch d) (io_light d) (io_buzz d) (TIMSK2 d)
    (backlight_counter d) (buzzer_counter d) (buzzer_state d).

Definition set_clock (t : T) d : Device T :=
  mkDevice (ca_state d) (ca_snoozed d) (ca_mode d) t (ca_alarm d)
    (ca_snooze d) (io_switch d) (io_light d) (io_buzz d) (TIMSK2 d)
    (backlight_counter d) (buzzer_counter d) (buzzer_state d).

Definition set_alarm (t : T) d : Device T :=
  mkDevice (ca_state d) (ca_snoozed d) (ca_mode d) (ca_clock d) t
    (ca_snooze d) (io_switch d) (io_light d) (io_buzz d) (TIMSK2 d)
    (backlight_counter d) (buzzer_counter d) (buzzer_state d).

Definition set_snooze (t : T) d : Device T :=
  mkDevice (ca_state d) (ca_snoozed d) (ca_mode d) (ca_clock d) (ca_alarm d)
    t (io_switch d) (io_light d) (io_buzz d) (TIMSK2 d)
    (backlight_counter d) (buzzer_counter d) (buzzer_state d).

Definition set_switch (b : bool) d : Device T :=
  mkDevice (ca_state d) (ca_snoozed d) (ca_mode d) (ca_clock d) (ca_alarm d)
    (ca_snooze d) b (io_light d) (io_buzz d) (TIMSK2 d)
    (backlight_counter d) (buzzer_counter d) (buzzer_state d).

(** [ca.io.setLight(b)] *)
Definition setLight (b : bool) d : Device T :=
  mkDevice (ca_state d) (ca_snoozed d) (ca_mode d) (ca_clock d) (ca_alarm d)
    (ca_snooze d) (io_switch d) b (io_buzz d) (TIMSK2 d)
    (backlight_counter d) (buzzer_counter d) (buzzer_state d).

(** [ca.io.buzz()] *)
Definition buzz d : Device T :=
  mkDevice (ca_state d) (ca_snoozed d) (ca_mode d) (ca_clock d) (ca_alarm d)
    (ca_snooze d) (io_switch d) (io_light d) (S (io_buzz d)) (TIMSK2 d)
    (backlight_counter d) (buzzer_counter d) (buzzer_state d).

Definition set_TIMSK2 (r : Z) d : Device T :=
  mkDevice (ca_state d) (ca_snoozed d) (ca_mode d) (ca_clock d) (ca_alarm d)
    (ca_snooze d) (io_switch d) (io_light d) (io_buzz d) r
    (backlight_counter d) (buzzer_counter d) (buzzer_state d).

Definition set_backlight_counter (n : Z) d : Device T :=
  mkDevice (ca_state d) (ca_snoozed d) (ca_mode d) (ca_clock d) (ca_alarm d)
    (ca_snooze d) (io_switch d) (io_light d) (io_buzz d) (TIMSK2 d)
    n (buzzer_counter d) (buzzer_state d).

Definition set_buzzer_counter (n : Z) d : Device T :=
  mkDevice (ca_state d) (ca_snoozed d) (ca_mode d) (ca_clock d) (ca_alarm d)
    (ca_snooze d) (io_switch d) (io_light d) (io_buzz d) (TIMSK2 d)
    (backlight_counter d) n (buzzer_state d).

(** Whether the Timer 2 compare interrupt, the source of the buzzer
    pulses, is enabled. *)
Definition armed d : bool := Z.testbit (TIMSK2 d) OCIE1A.
(** [d'] differs from [d] at most in the buzzer countdown and in the
    interrupt-enable bit of the buzzer timer. *)
Definition same_but_buzzer d d' : Prop :=
  ca_state d' = ca_state d /\ ca_snoozed d' = ca_snoozed d /\
  ca_mode d' = ca_mode d /\ ca_clock d' = ca_clock d /\
  ca_alarm d' = ca_alarm d /\ ca_snooze d' = ca_snooze d /\
  io_switch d' = io_switch d /\ io_light d' = io_light d /\
  io_buzz d' = io_buzz d /\ backlight_counter d' = backlight_counter d /\
  buzzer_state d' = buzzer_state d /\
  (forall i, 0 <= i -> i <> OCIE1A ->
     Z.testbit (TIMSK2 d') i = Z.testbit (TIMSK2 d) i).

End Assignments.

(** ** The functions of main.cpp *)

Section Firmware.
Variable P : Platform.
Context {T : Type} `{ClockOps T}.
Implicit Type d : Device T.

(** A condition written [ca.state = X]: the assignment is carried out and
    its value, the enumerator converted to an integer, decides the
    branch. *)
Definition assign_state_cond (X : DeviceState) d : bool * Device T :=
  (negb (state_code P X =? 0), set_state X d).

(** main.cpp:412 *)
Definition stopBuzzer d : Device T :=
  set_TIMSK2 (UNSET_BIT (TIMSK2 d) OCIE1A) d.

(** main.cpp:397 *)
Definition startBuzzer d : Device T :=
  let d1 :=
    if state_eqb (ca_state d) RING then
      if buzzer_counter d <=? 0
      then set_buzzer_counter (N_BUZZER_LONG P) d
      else d
    else set_buzzer_counter (N_BUZZER_SHORT P) d in
  set_TIMSK2 (SET_BIT (TIMSK2 d1) OCIE1A) d1.

(** *** Button handlers *)

(** main.cpp:267 *)
Definition pressButton d : Device T :=
  startBuzzer (set_backlight_counter (N_BACKLIGHT P) (setLight true d)).

(** main.cpp:275 *)
Definition pressStopAlarm d : Device T :=
  let (g, d1) := assign_state_cond RING d in
  if g then stopBuzzer (set_snoozed false (set_state IDLE d1)) else d1.

(** main.cpp:286 *)
Definition pressSetAlarm d : Device T :=
  if state_eqb (ca_state d) SET_ALARM1
  then set_state SET_ALARM2 d
  else set_state IDLE d.

(** main.cpp:295 *)
Definition longSetAlarm d : Device T :=
  if state_eqb (ca_state d) IDLE then set_state SET_ALARM1 d else d.

(** main.cpp:302 *)
Definition pressSetClock d : Device T :=
  if state_eqb (ca_state d) SET_CLOCK1
  then set_state SET_CLOCK2 d
  else set_state IDLE d.

(** main.cpp:312 *)
Definition longSetClock d : Device T :=
  if state_eqb (ca_state d) IDLE then set_state SET_CLOCK1 d else d.

(** main.cpp:319 *)
Definition pressUp d : Device T :=
  match ca_state d with
  | SET_ALARM1 => set_alarm (setHour 1 (ca_alarm d)) d
  | SET_ALARM2 => set_alarm (setMin 1 (ca_alarm d)) d
  | SET_CLOCK1 => set_clock (setHour 1 (ca_clock d)) d
  | SET_CLOCK2 => set_clock (setMin 1 (ca_clock d)) d
  | _ => d
  end.

(** main.cpp:343 *)
Definition pressDown d : Device T :=
  match ca_state d with
  | SET_ALARM1 => set_alarm (setHour (-1) (ca_alarm d)) d
  | SET_ALARM2 => set_alarm (setMin (-1) (ca_alarm d)) d
  | SET_CLOCK1 => set_clock (setHour (-1) (ca_clock d)) d
  | SET_CLOCK2 => set_clock (setMin (-1) (ca_clock d)) d
  | _ => d
  end.

(** main.cpp:367 *)
Definition pressMode d : Device T :=
  match ca_mode d with
  | H12 => set_mode H24 d
  | H24 => set_mode H12 d
  end.

(** main.cpp:375 *)
Definition pressSnooze d : Device T :=
  if state_eqb (ca_state d) RING then
    let d1 :=
      if negb (ca_snoozed d) then
        let d2 := set_snoozed true d in
        let d3 := set_snooze (sync (ca_snooze d2) (ca_alarm d2)) d2 in
        set_snooze (setMin 5 (ca_snooze d3)) d3
      else set_snooze (setMin 5 (ca_snooze d)) d in
    set_state IDLE d1
  else d.

(** *** Interrupt service routines *)

(** The backlight part of the Timer 0 overflow routine, main.cpp:189.  The
    [else] belongs to the inner [if]. *)
Definition backlight_timeout d : Device T :=
  if negb (backlight_counter d =? BACKLIGHT_OFF) then
    if 0 <? backlight_counter d
    then set_backlight_counter (backlight_counter d - 1) d
    else set_backlight_counter BACKLIGHT_OFF (setLight false d)
  else d.

(** The buzzer part of the Timer 0 overflow routine, main.cpp:198.  The
    statement [buzzer_state != buzzer_state;] at main.cpp:213 evaluates a
    comparison and discards it: nothing is stored. *)
Definition buzzer_timeout d : Device T :=
  if negb (buzzer_counter d =? BUZZER_OFF) then
    if 0 <? buzzer_counter d
    then set_buzzer_counter (buzzer_counter d - 1) d
    else
      if state_eqb (ca_state d) RING then
        if buzzer_state d
        then startBuzzer d
        else stopBuzzer (set_buzzer_counter (N_BUZZER_LONG P) d)
      else stopBuzzer (set_buzzer_counter BUZZER_OFF d)
  else d.

(** ISR(TIMER1_COMPA_vect), main.cpp:229 *)
Definition TIMER1_COMPA_vect d : Device T :=
  let d0 := set_clock (tick (ca_clock d)) d in
  if io_switch d0 then
    let (g, d1) := assign_state_cond IDLE d0 in
    if g then
      if ca_snoozed d1 then
        if getValue (ca_snooze d1) =? getValue (ca_clock d1)
        then startBuzzer (set_state RING d1)
        else d1
      else
        if getValue (ca_alarm d1) =? getValue (ca_clock d1)
        then startBuzzer (set_state RING d1)
        else d1
    else d1
  else d0.

(** ISR(TIMER2_COMPA_vect), main.cpp:258 *)
Definition TIMER2_COMPA_vect d : Device T := buzz d.

(** *** Listener registration and dispatch *)

Definition Handler : Type := Device T -> Device T.

(** The listener tables that [ca.io] keeps. *)
Record Listeners : Type := mkListeners {
  generic_press : list Handler;
  button_press : list (Button * Handler);
  button_long : list (Button * Handler)
}.

Definition no_listeners : Listeners := mkListeners [] [] [].

(** Modelled from the spec: [IO::setPressHandler] and [IO::setLongHandler]
    are absent; "multiple listeners may be registered for the same
    button/edge", kept in registration order. *)
Definition setPressHandlerAll (h : Handler) (r : Listeners) : Listeners :=
  mkListeners (generic_press r ++ [h]) (button_press r) (button_long r).

Definition setPressHandler (b : Button) (h : Handler) (r : Listeners)
  : Listeners :=
  mkListeners (generic_press r) (button_press r ++ [(b, h)]) (button_long r).

Definition setLongHandler (b : Button) (h : Handler) (r : Listeners)
  : Listeners :=
  mkListeners (generic_press r) (button_press r) (button_long r ++ [(b, h)]).

(** The registrations of main(), main.cpp:135 to main.cpp:146, in program
    order. *)
Definition main_listeners : Listeners :=
  setLongHandler SET_ALARM longSetClock
  (setLongHandler SET_ALARM longSetAlarm
  (setPressHandler STOP_ALARM pressStopAlarm
  (setPressHandler SNOOZE pressSnooze
  (setPressHandler MODE pressMode
  (setPressHandler DOWN pressDown
  (setPressHandler UP pressUp
  (setPressHandler SET_ALARM pressSetClock
  (setPressHandler SET_ALARM pressSetAlarm
  (setPressHandlerAll pressButton no_listeners))))))))).

Definition listeners_of (b : Button) (tbl : list (Button * Handler))
  : list Handler :=
  map snd (filter (fun bh => button_eqb (fst bh) b) tbl).

(** Runs the handlers one after the other, first to last. *)
Definition run_handlers (hs : list Handler) d : Device T :=
  fold_left (fun acc h => h acc) hs d.

(** Modelled from the spec: the dispatch of [IO::checkPress] for one
    completed short press is absent; "dispatch order among them is
    registration order, and all registered listeners run (no
    stop-on-first)".  The generic listeners, "called for every button",
    were registered first. *)
Definition dispatch_press (r : Listeners) (b : Button) d : Device T :=
  run_handlers (generic_press r ++ listeners_of b (button_press r)) d.

(** Modelled from the spec: the dispatch of [IO::countCheckLong] for one
    button whose hold crossed the long-press threshold is absent; the
    listeners run in registration order, all of them. *)
Definition dispatch_long (r : Listeners) (b : Button) d : Device T :=
  run_handlers (listeners_of b (button_long r)) d.

(** [ca.io.checkPress()] when the buttons [released] completed a short
    press since the last poll. *)
Definition checkPress (released : list Button) d : Device T :=
  fold_left (fun acc b => dispatch_press main_listeners b acc) released d.

(** [ca.io.countCheckLong()] when the holds of the buttons [held] cross the
    threshold at this overflow. *)
Definition countCheckLong (held : list Button) d : Device T :=
  fold_left (fun acc b => dispatch_long main_listeners b acc) held d.

(** ISR(TIMER0_OVF_vect), main.cpp:183 *)
Definition TIMER0_OVF_vect (held : list Button) d : Device T :=
  buzzer_timeout (backlight_timeout (countCheckLong held d)).

(** *** The foreground loop *)

(** The switch test at the head of the loop body, main.cpp:153. *)
Definition main_switch_check d : Device T :=
  if negb (io_switch d) then
    let (g, d1) := assign_state_cond RING d in
    if g then stopBuzzer (set_snoozed false (set_state IDLE d1)) else d1
  else d.

(** One turn of [while (1)], main.cpp:150; [gui.draw()] only reads. *)
Definition main_loop_body (released : list Button) d : Device T :=
  checkPress released (main_switch_check d).

(** *** Events *)

(** What can happen to the device between two instructions of interest:
    the switch is moved, the foreground loop tests the switch, a short or
    a long press is dispatched, or one of the three timers fires. *)
Inductive Event : Type :=
  | SwitchMoved (on : bool)
  | LoopPoll
  | ShortPress (b : Button)
  | LongPress (b : Button)
  | Tick1s
  | TickFast
  | TickBuzz.

Definition step (e : Event) d : Device T :=
  match e with
  | SwitchMoved on => set_switch on d
  | LoopPoll => main_switch_check d
  | ShortPress b => dispatch_press main_listeners b d
  | LongPress b => dispatch_long main_listeners b d
  | Tick1s => TIMER1_COMPA_vect d
  | TickFast => TIMER0_OVF_vect [] d
  | TickBuzz => if armed d then TIMER2_COMPA_vect d else d
  end.

Definition run (es : list Event) d : Device T :=
  fold_left (fun acc e => step e acc) es d.
End Firmware.

(** ** Concrete parameters *)

(** Modelled from the spec: the declaration of the enumeration in
    [core/CodAlarm.h] is absent; the data model gives it as
    "enum {IDLE, SET_ALARM1, SET_ALARM2, SET_CLOCK1, SET_CLOCK2, RING}",
    and enumerators without initialisers count up from zero. *)
Definition spec_state_code (s : DeviceState) : Z :=
  match s with
  | IDLE => 0
  | SET_ALARM1 => 1
  | SET_ALARM2 => 2
  | SET_CLOCK1 => 3
  | SET_CLOCK2 => 4
  | RING => 5
  end.

(** The platform with the enumerators numbered as declared; the three
    durations stay free. *)
Definition spec_platform (n_long n_short n_backlight : Z) : Platform :=
  mkPlatform n_long n_short n_backlight spec_state_code.

(** Example durations, for evaluating the handlers on concrete devices. *)
Definition demo_platform : Platform := spec_platform 400 40 2000.

(** A numbering that differs from the declared one only in that no
    enumerator is zero. *)
Definition shifted_platform : Platform :=
  mkPlatform 400 40 2000 (fun s => spec_state_code s + 1).

(** Modelled from the spec: class [Clock] of [core/Clock.h] is absent; a
    TimeValue is "{hour, minute, second}", "always normalized", and
    "increment/decrement wrap with carry (minute 59->0 increments hour,
    hour 23->0 ...)".  This is the 24-hour instance; [sync] copies the
    other value. *)
Record TimeValue : Type := mkTime { hour : Z; minute : Z; second : Z }.

Definition tv_setHour (n : Z) (t : TimeValue) : TimeValue :=
  mkTime ((hour t + n) mod 24) (minute t) (second t).

Definition tv_setMin (n : Z) (t : TimeValue) : TimeValue :=
  let m := minute t + n in
  mkTime ((hour t + m / 60) mod 24) (m mod 60) (second t).

Definition tv_tick (t : TimeValue) : TimeValue :=
  let s := second t + 1 in
  if s <? 60 then mkTime (hour t) (minute t) s
  else tv_setMin 1 (mkTime (hour t) (minute t) 0).

Definition tv_sync (self other : TimeValue) : TimeValue := other.

Definition tv_getValue (t : TimeValue) : Z :=
  (hour t * 60 + minute t) * 60 + second t.

#[export] Instance TimeValue_ops : ClockOps TimeValue := {
  tick := tv_tick;
  setHour := tv_setHour;
  setMin := tv_setMin;
  sync := tv_sync;
  getValue := tv_getValue
}.

(** The device after power-up: "00:00, alarm disabled/zero, IDLE, H24",
    both countdowns off, the buzzer interrupt disabled. *)
Definition power_up (switch_on : bool) : Device TimeValue :=
  mkDevice IDLE false H24 (mkTime 0 0 0) (mkTime 0 0 0) (mkTime 0 0 0)
    switch_on false 0%nat 0 BACKLIGHT_OFF BUZZER_OFF false.

(** ** The transition table of the specification *)

(** The logical buttons the table names; Set Clock is the same physical
    button as Set Alarm. *)
Inductive Logical : Type :=
  | L_SET_ALARM | L_SET_CLOCK | L_UP | L_DOWN | L_MODE | L_SNOOZE
  | L_STOP_ALARM.

Definition physical (l : Logical) : Button :=
  match l with
  | L_SET_ALARM | L_SET_CLOCK => SET_ALARM
  | L_UP => UP
  | L_DOWN => DOWN
  | L_MODE => MODE
  | L_SNOOZE => SNOOZE
  | L_STOP_ALARM => STOP_ALARM
  end.

(** The events of the table. *)
Inductive TableEvent : Type :=
  | T_Short (l : Logical)
  | T_Long (l : Logical)
  | T_Poll
  | T_Tick.

Definition event_of (te : TableEvent) : Event :=
  match te with
  | T_Short l => ShortPress (physical l)
  | T_Long l => LongPress (physical l)
  | T_Poll => LoopPoll
  | T_Tick => Tick1s
  end.

Definition is_editing (s : DeviceState) : bool :=
  match s with
  | SET_ALARM1 | SET_ALARM2 | SET_CLOCK1 | SET_CLOCK2 => true
  | _ => false
  end.

(** A short press of the button that Set Alarm and Set Clock share. *)
Definition is_shared_press (te : TableEvent) : bool :=
  match te with
  | T_Short L_SET_ALARM | T_Short L_SET_CLOCK => true
  | _ => false
  end.

Section Table.
Context {T : Type} `{ClockOps T}.

(** Modelled from the spec: whether the table of section 4.1 has a row
    for the state of [d] and the event.  Set Alarm and Set Clock are one
    physical button, so a press of it has a row whenever the row of either
    label applies.  The rows for the generic listener describe what
    accompanies every short press and list no pair of their own: a short
    press of Set Alarm in RING is not a row. *)
Definition listed (d : Device T) (te : TableEvent) : bool :=
  let s := ca_state d in
  match te with
  | T_Long L_SET_ALARM | T_Long L_SET_CLOCK => state_eqb s IDLE
  | T_Long _ => false
  | T_Short L_SET_ALARM | T_Short L_SET_CLOCK => is_editing s
  | T_Short L_UP | T_Short L_DOWN => is_editing s
  | T_Short L_MODE => true
  | T_Short L_SNOOZE | T_Short L_STOP_ALARM => state_eqb s RING
  | T_Poll => state_eqb s RING && negb (io_switch d)
  | T_Tick =>
      state_eqb s IDLE && io_switch d &&
      (if ca_snoozed d
       then getValue (ca_snooze d) =? getValue (tick (ca_clock d))
       else getValue (ca_alarm d) =? getValue (tick (ca_clock d)))
  end.

(** Whether processing the event reaches one of the three conditions
    written as an assignment (main.cpp:155, main.cpp:236, main.cpp:277) in
    a state other than the one the condition names, so that evaluating
    the condition overwrites the state. *)
Definition assignment_overwrites_state (d : Device T) (te : TableEvent)
  : bool :=
  match te with
  | T_Short L_STOP_ALARM => negb (state_eqb (ca_state d) RING)
  | T_Poll => negb (io_switch d) && negb (state_eqb (ca_state d) RING)
  | T_Tick => io_switch d && negb (state_eqb (ca_state d) IDLE)
  | _ => false
  end.

(** The closed-table property for one device, platform and event. *)
Definition closed_table_at (P : Platform) (d : Device T) (te : TableEvent)
  : Prop :=
  listed d te = false ->
  ca_state (step P (event_of te) d) = ca_state d.

(** The guard as the specification words it: a pure equality test. *)
Definition equality_cond (X : DeviceState) (d : Device T)
  : bool * Device T :=
  (state_eqb (ca_state d) X, d).
End Table.

(** ** Concrete devices *)

(** One second before the alarm time 06:30:00: IDLE, switch on, never
    snoozed, buzzer and backlight off. *)
Definition alarm_due : Device TimeValue :=
  mkDevice IDLE false H24 (mkTime 6 29 59) (mkTime 6 30 0) (mkTime 0 0 0)
    true false 0%nat 0 BACKLIGHT_OFF BUZZER_OFF false.

(** The user is editing the alarm hour, after an earlier snooze. *)
Definition editing_hours : Device TimeValue :=
  set_snoozed true (set_state SET_ALARM1 alarm_due).

(** The alarm rings and the first phase of the pattern has just run out:
    pulse source enabled, countdown at zero. *)
Definition phase_over : Device TimeValue :=
  mkDevice RING false H24 (mkTime 6 30 1) (mkTime 6 30 0) (mkTime 0 0 0)
    true false 0%nat (SET_BIT 0 OCIE1A) BACKLIGHT_OFF 0 false.

(** The alarm rings; a key beep started earlier still has 7 overflows to
    go. *)
Definition ringing_mid_beep : Device TimeValue :=
  mkDevice RING false H24 (mkTime 6 30 1) (mkTime 6 30 0) (mkTime 0 0 0)
    true false 0%nat (SET_BIT 0 OCIE1A) BACKLIGHT_OFF 7 false.

(** The alarm rings again after one snooze to 06:35:00. *)
Definition ringing_snoozed : Device TimeValue :=
  mkDevice RING true H24 (mkTime 6 35 1) (mkTime 6 30 0) (mkTime 6 35 0)
    true false 0%nat (SET_BIT 0 OCIE1A) BACKLIGHT_OFF 7 false.

(** Minutes since midnight. *)
Definition minute_of_day (t : TimeValue) : Z := hour t * 60 + minute t.

(** A walk through the buttons, the switch and the timers. *)
Definition sample_events : list Event :=
  [LongPress SET_ALARM; ShortPress UP; ShortPress SET_ALARM; TickFast;
   Tick1s; LongPress SET_ALARM; LongPress SET_ALARM; SwitchMoved false;
   LoopPoll; ShortPress STOP_ALARM; LongPress MODE; ShortPress SNOOZE;
   TickBuzz; SwitchMoved true; Tick1s; LongPress SET_ALARM].

(** ** Measures on event sequences and devices *)

Definition is_tick (e : Event) : bool :=
  match e with Tick1s => true | _ => false end.

(** How many 1-second interrupts a sequence contains. *)
Definition count_ticks (es : list Event) : nat := length (filter is_tick es).

Definition is_mode_press (e : Event) : bool :=
  match e with ShortPress MODE => true | _ => false end.

Definition count_mode_presses (es : list Event) : nat :=
  length (filter is_mode_press es).

Definition toggle_mode (m : Mode) : Mode :=
  match m with H12 => H24 | H24 => H12 end.

Definition is_short_press (e : Event) : bool :=
  match e with ShortPress _ => true | _ => false end.

Definition is_up_down_press (e : Event) : bool :=
  match e with ShortPress UP | ShortPress DOWN => true | _ => false end.

Definition is_snooze_press (e : Event) : bool :=
  match e with ShortPress SNOOZE => true | _ => false end.

Definition is_alarm_editing (s : DeviceState) : bool :=
  match s with SET_ALARM1 | SET_ALARM2 => true | _ => false end.


(** A key was pressed while idle: the beep and the backlight have just
    started. *)
Definition after_key_press : Device TimeValue :=
  pressButton demo_platform (power_up true).

(** * Properties *)

(** ** The interrupt-enable bit *)

Lemma testbit_SET_BIT (r : Z) : Z.testbit (SET_BIT r OCIE1A) OCIE1A = true.
Proof.
  unfold SET_BIT. rewrite Z.lor_spec.
  change (Z.testbit (Z.shiftl 1 OCIE1A) OCIE1A) with true.
  apply orb_true_r.
Qed.

Lemma testbit_UNSET_BIT (r : Z) :
  Z.testbit (UNSET_BIT r OCIE1A) OCIE1A = false.
Proof.
  unfold UNSET_BIT. rewrite Z.land_spec.
  change (Z.testbit (Z.lnot (Z.shiftl 1 OCIE1A)) OCIE1A) with false.
  apply andb_false_r.
Qed.

(** The other bits of the register keep their value. *)
Lemma testbit_SET_BIT_other (r i : Z) :
  0 <= i -> i <> OCIE1A ->
  Z.testbit (SET_BIT r OCIE1A) i = Z.testbit r i.
Proof.
  intros Hi Hne. unfold SET_BIT. rewrite Z.lor_spec.
  rewrite Z.shiftl_spec by exact Hi.
  replace (Z.testbit 1 (i - OCIE1A)) with false; [apply orb_false_r|].
  symmetry. unfold OCIE1A in *.
  destruct (Z.ltb_spec (i - 1) 0) as [Hlt|Hge].
  - apply Z.testbit_neg_r; exact Hlt.
  - change 1 with (2 ^ 0). apply Z.pow2_bits_false. lia.
Qed.

Lemma state_eqb_eq (a b : DeviceState) : state_eqb a b = true <-> a = b.
Proof. destruct a, b; simpl; split; intro E; try reflexivity; discriminate. Qed.

Lemma state_eqb_refl (a : DeviceState) : state_eqb a a = true.
Proof. destruct a; reflexivity. Qed.

Lemma state_eqb_neq (a b : DeviceState) : state_eqb a b = false <-> a <> b.
Proof.
  destruct a, b; simpl; split; intro E; try reflexivity; try discriminate;
    try (exfalso; apply E; reflexivity).
Qed.

(** Splits on every condition of the goal, most recent first. *)
Ltac split_ifs :=
  repeat match goal with
         | |- context [if ?c then _ else _] => destruct c eqn:?; simpl
         end.

Section HandlerFacts.
Variable P : Platform.
Context {T : Type} `{ClockOps T}.
Implicit Type d : Device T.

(** *** The buzzer operations *)

Lemma startBuzzer_state d : ca_state (startBuzzer P d) = ca_state d.
Proof. unfold startBuzzer. split_ifs; reflexivity. Qed.

Lemma stopBuzzer_state d : ca_state (stopBuzzer d) = ca_state d.
Proof. reflexivity. Qed.

Lemma startBuzzer_armed d : armed (startBuzzer P d) = true.
Proof. unfold startBuzzer, armed. simpl. apply testbit_SET_BIT. Qed.

Lemma stopBuzzer_armed d : armed (stopBuzzer d) = false.
Proof. unfold stopBuzzer, armed. simpl. apply testbit_UNSET_BIT. Qed.

Lemma startBuzzer_buzzer_state d :
  buzzer_state (startBuzzer P d) = buzzer_state d.
Proof. unfold startBuzzer. split_ifs; reflexivity. Qed.

Lemma startBuzzer_frame d : same_but_buzzer d (startBuzzer P d).
Proof.
  unfold same_but_buzzer, startBuzzer.
  destruct (state_eqb (ca_state d) RING);
    [destruct (buzzer_counter d <=? 0)|]; simpl;
    repeat (split; [reflexivity|]); intros i Hi Hne;
    apply testbit_SET_BIT_other; assumption.
Qed.

(** *** The state after each handler *)

Lemma pressButton_state d : ca_state (pressButton P d) = ca_state d.
Proof. unfold pressButton. rewrite startBuzzer_state. reflexivity. Qed.

Lemma pressButton_fields d :
  ca_snoozed (pressButton P d) = ca_snoozed d /\
  ca_alarm (pressButton P d) = ca_alarm d /\
  ca_snooze (pressButton P d) = ca_snooze d /\
  ca_clock (pressButton P d) = ca_clock d /\
  buzzer_state (pressButton P d) = buzzer_state d.
Proof.
  unfold pressButton.
  destruct (startBuzzer_frame
              (set_backlight_counter (N_BACKLIGHT P) (setLight true d)))
    as (_ & Hs & _ & Hc & Ha & Hz & _ & _ & _ & _ & Hb & _).
  rewrite Hs, Ha, Hz, Hc, Hb. repeat split.
Qed.

Lemma pressSetAlarm_state d :
  ca_state (pressSetAlarm d) =
  if state_eqb (ca_state d) SET_ALARM1 then SET_ALARM2 else IDLE.
Proof. unfold pressSetAlarm. split_ifs; reflexivity. Qed.

Lemma pressSetClock_state d :
  ca_state (pressSetClock d) =
  if state_eqb (ca_state d) SET_CLOCK1 then SET_CLOCK2 else IDLE.
Proof. unfold pressSetClock. split_ifs; reflexivity. Qed.

Lemma longSetAlarm_state d :
  ca_state (longSetAlarm d) =
  if state_eqb (ca_state d) IDLE then SET_ALARM1 else ca_state d.
Proof. unfold longSetAlarm. split_ifs; reflexivity. Qed.

Lemma longSetClock_state d :
  ca_state (longSetClock d) =
  if state_eqb (ca_state d) IDLE then SET_CLOCK1 else ca_state d.
Proof. unfold longSetClock. split_ifs; reflexivity. Qed.

Lemma pressUp_state d : ca_state (pressUp d) = ca_state d.
Proof. unfold pressUp. destruct (ca_state d) eqn:E; simpl; auto. Qed.

Lemma pressDown_state d : ca_state (pressDown d) = ca_state d.
Proof. unfold pressDown. destruct (ca_state d) eqn:E; simpl; auto. Qed.

Lemma pressMode_state d : ca_state (pressMode d) = ca_state d.
Proof. unfold pressMode. destruct (ca_mode d); reflexivity. Qed.

Lemma pressSnooze_state d :
  ca_state (pressSnooze d) =
  if state_eqb (ca_state d) RING then IDLE else ca_state d.
Proof. unfold pressSnooze. split_ifs; reflexivity. Qed.

(** Whatever the numbering of the enumerators, the Stop Alarm handler and
    the switch test leave the device in IDLE or RING: their condition has
    stored RING before it is tested. *)
Lemma pressStopAlarm_state d :
  ca_state (pressStopAlarm P d) =
  if state_code P RING =? 0 then RING else IDLE.
Proof.
  unfold pressStopAlarm, assign_state_cond.
  destruct (state_code P RING =? 0); reflexivity.
Qed.

Lemma main_switch_check_state d :
  ca_state (main_switch_check P d) =
  if io_switch d then ca_state d
  else if state_code P RING =? 0 then RING else IDLE.
Proof.
  unfold main_switch_check, assign_state_cond.
  destruct (io_switch d); simpl; [reflexivity|].
  destruct (state_code P RING =? 0); reflexivity.
Qed.

Lemma backlight_timeout_state d : ca_state (backlight_timeout d) = ca_state d.
Proof. unfold backlight_timeout. split_ifs; reflexivity. Qed.

Lemma buzzer_timeout_state d : ca_state (buzzer_timeout P d) = ca_state d.
Proof.
  unfold buzzer_timeout, startBuzzer. split_ifs; reflexivity.
Qed.

(** *** The listener tables of main() *)

Lemma press_listeners (b : Button) :
  generic_press (main_listeners P) ++
  listeners_of b (button_press (main_listeners P)) =
  pressButton P ::
  match b with
  | SET_ALARM => [pressSetAlarm; pressSetClock]
  | UP => [pressUp]
  | DOWN => [pressDown]
  | MODE => [pressMode]
  | SNOOZE => [pressSnooze]
  | STOP_ALARM => [pressStopAlarm P]
  end.
Proof. destruct b; reflexivity. Qed.

Lemma long_listeners (b : Button) :
  listeners_of b (button_long (main_listeners P)) =
  match b with
  | SET_ALARM => [longSetAlarm; longSetClock]
  | _ => []
  end.
Proof. destruct b; reflexivity. Qed.

Lemma dispatch_press_eq (b : Button) d :
  dispatch_press (main_listeners P) b d =
  match b with
  | SET_ALARM => pressSetClock (pressSetAlarm (pressButton P d))
  | UP => pressUp (pressButton P d)
  | DOWN => pressDown (pressButton P d)
  | MODE => pressMode (pressButton P d)
  | SNOOZE => pressSnooze (pressButton P d)
  | STOP_ALARM => pressStopAlarm P (pressButton P d)
  end.
Proof.
  unfold dispatch_press. rewrite press_listeners. destruct b; reflexivity.
Qed.

Lemma dispatch_long_eq (b : Button) d :
  dispatch_long (main_listeners P) b d =
  match b with
  | SET_ALARM => longSetClock (longSetAlarm d)
  | _ => d
  end.
Proof.
  unfold dispatch_long. rewrite long_listeners. destruct b; reflexivity.
Qed.

(** The routines of main.cpp are runs of events. *)
Lemma TIMER0_OVF_vect_as_run (held : list Button) d :
  TIMER0_OVF_vect P held d = run P (map LongPress held ++ [TickFast]) d.
Proof.
  unfold TIMER0_OVF_vect, run, countCheckLong.
  rewrite fold_left_app. simpl. do 2 f_equal.
  revert d. induction held as [|b bs IH]; intro d; simpl; [reflexivity|].
  apply IH.
Qed.

Lemma main_loop_body_as_run (released : list Button) d :
  main_loop_body P released d = run P (LoopPoll :: map ShortPress released) d.
Proof.
  unfold main_loop_body, run, checkPress. simpl.
  generalize (main_switch_check P d). clear d.
  induction released as [|b bs IH]; intro d; simpl; [reflexivity|].
  apply IH.
Qed.
End HandlerFacts.

(** ** The 1-second tick *)

Section TickFacts.
Variable P : Platform.
Context {T : Type} `{ClockOps T}.
Implicit Type d : Device T.

(** With the switch off the routine only advances the clock. *)
Lemma TIMER1_switch_off d :
  io_switch d = false ->
  TIMER1_COMPA_vect P d = set_clock (tick (ca_clock d)) d.
Proof. intro Hsw. unfold TIMER1_COMPA_vect. simpl. rewrite Hsw. reflexivity. Qed.

(** When IDLE converts to zero, the condition at main.cpp:236 is false
    after it has stored IDLE: nothing is compared and the buzzer is not
    touched. *)
Lemma TIMER1_IDLE_zero d :
  state_code P IDLE = 0 -> io_switch d = true ->
  TIMER1_COMPA_vect P d = set_state IDLE (set_clock (tick (ca_clock d)) d).
Proof.
  intros Hz Hsw. unfold TIMER1_COMPA_vect, assign_state_cond. simpl.
  rewrite Hsw, Hz. reflexivity.
Qed.

(** When IDLE converts to a non-zero integer the comparison runs, and a
    match starts the ringing; the countdown is set to the long duration
    only if it was exhausted. *)
Lemma TIMER1_IDLE_nonzero_match d :
  state_code P IDLE <> 0 -> io_switch d = true -> ca_snoozed d = false ->
  getValue (ca_alarm d) = getValue (tick (ca_clock d)) ->
  ca_state (TIMER1_COMPA_vect P d) = RING /\
  armed (TIMER1_COMPA_vect P d) = true /\
  buzzer_counter (TIMER1_COMPA_vect P d) =
    if buzzer_counter d <=? 0 then N_BUZZER_LONG P else buzzer_counter d.
Proof.
  intros Hnz Hsw Hsn Hm.
  unfold TIMER1_COMPA_vect, assign_state_cond, startBuzzer, armed. simpl.
  rewrite Hsw, Hsn, Hm, Z.eqb_refl.
  destruct (Z.eqb_spec (state_code P IDLE) 0) as [E|_]; [contradiction|].
  simpl. destruct (buzzer_counter d <=? 0); simpl;
    repeat split; apply testbit_SET_BIT.
Qed.

Lemma TIMER1_state_switch_on d :
  io_switch d = true ->
  ca_state (TIMER1_COMPA_vect P d) = IDLE \/
  ca_state (TIMER1_COMPA_vect P d) = RING.
Proof.
  intro Hsw. unfold TIMER1_COMPA_vect, assign_state_cond. simpl. rewrite Hsw.
  destruct (negb (state_code P IDLE =? 0)); [|left; reflexivity].
  destruct (ca_snoozed d); simpl.
  - destruct (getValue (ca_snooze d) =? getValue (tick (ca_clock d)));
      [right; apply startBuzzer_state | left; reflexivity].
  - destruct (getValue (ca_alarm d) =? getValue (tick (ca_clock d)));
      [right; apply startBuzzer_state | left; reflexivity].
Qed.

Lemma TIMER1_forgets_state d :
  io_switch d = true ->
  TIMER1_COMPA_vect P d = TIMER1_COMPA_vect P (set_state IDLE d).
Proof.
  intro Hsw. unfold TIMER1_COMPA_vect, assign_state_cond. simpl.
  rewrite Hsw. reflexivity.
Qed.

(** *** Reachability of the clock-editing states *)

Lemma step_avoids_clock_editing (e : Event) d :
  ca_state d <> SET_CLOCK1 -> ca_state d <> SET_CLOCK2 ->
  ca_state (step P e d) <> SET_CLOCK1 /\ ca_state (step P e d) <> SET_CLOCK2.
Proof.
  intros H1 H2. destruct e as [on| |b|b| | |]; simpl.
  - split; assumption.
  - rewrite main_switch_check_state.
    destruct (io_switch d); [split; assumption|].
    destruct (state_code P RING =? 0); split; discriminate.
  - rewrite dispatch_press_eq. destruct b.
    + rewrite pressSetClock_state, pressSetAlarm_state.
      destruct (state_eqb (ca_state (pressButton P d)) SET_ALARM1); simpl;
        split; discriminate.
    + rewrite pressUp_state, pressButton_state.
      split; assumption.
    + rewrite pressDown_state, pressButton_state.
      split; assumption.
    + rewrite pressMode_state, pressButton_state. split; assumption.
    + rewrite pressSnooze_state, pressButton_state.
      destruct (state_eqb (ca_state d) RING); split;
        discriminate || assumption.
    + rewrite pressStopAlarm_state.
      destruct (state_code P RING =? 0); split; discriminate.
  - rewrite dispatch_long_eq. destruct b; try (split; assumption).
    rewrite longSetClock_state, longSetAlarm_state.
    destruct (ca_state d) eqn:E; simpl; split;
      discriminate || (exfalso; auto).
  - destruct (io_switch d) eqn:Hsw.
    + destruct (TIMER1_state_switch_on d Hsw) as [E|E]; rewrite E;
        split; discriminate.
    + rewrite TIMER1_switch_off by exact Hsw. split; assumption.
  - unfold TIMER0_OVF_vect. simpl.
    rewrite buzzer_timeout_state, backlight_timeout_state. split; assumption.
  - destruct (armed d); split; assumption.
Qed.

(** The same holds listener by listener, so a timer interrupt taken
    between two listeners of one short press cannot open a path either;
    the long-press listeners run inside the Timer 0 routine and are
    covered as a whole by [step_avoids_clock_editing]. *)
Lemma press_listener_avoids_clock_editing (h : Device T -> Device T) d :
  In h (generic_press (main_listeners P) ++
        map snd (button_press (main_listeners P))) ->
  ca_state d <> SET_CLOCK1 -> ca_state d <> SET_CLOCK2 ->
  ca_state (h d) <> SET_CLOCK1 /\ ca_state (h d) <> SET_CLOCK2.
Proof.
  intros Hin H1 H2. simpl in Hin.
  repeat (destruct Hin as [<-|Hin]); try contradiction.
  - rewrite pressButton_state. split; assumption.
  - rewrite pressSetAlarm_state.
    destruct (state_eqb (ca_state d) SET_ALARM1); split; discriminate.
  - rewrite pressSetClock_state.
    apply state_eqb_neq in H1. rewrite H1. split; discriminate.
  - rewrite pressUp_state. split; assumption.
  - rewrite pressDown_state. split; assumption.
  - rewrite pressMode_state. split; assumption.
  - rewrite pressSnooze_state.
    destruct (state_eqb (ca_state d) RING); split;
      discriminate || assumption.
  - rewrite pressStopAlarm_state.
    destruct (state_code P RING =? 0); split; discriminate.
Qed.

Lemma run_avoids_clock_editing (es : list Event) d :
  ca_state d <> SET_CLOCK1 -> ca_state d <> SET_CLOCK2 ->
  ca_state (run P es d) <> SET_CLOCK1 /\ ca_state (run P es d) <> SET_CLOCK2.
Proof.
  revert d. induction es as [|e es IH]; intros d H1 H2; simpl.
  - split; assumption.
  - destruct (step_avoids_clock_editing e d H1 H2) as [H1' H2'].
    apply IH; assumption.
Qed.

(** The flag [buzzer_state] is read at main.cpp:205 and written nowhere. *)
Lemma step_buzzer_state (e : Event) d :
  buzzer_state (step P e d) = buzzer_state d.
Proof.
  destruct e as [on| |b|b| | |]; simpl.
  - reflexivity.
  - unfold main_switch_check, assign_state_cond. split_ifs; reflexivity.
  - rewrite dispatch_press_eq.
    destruct (pressButton_fields P d) as (_ & _ & _ & _ & Hb).
    destruct b; rewrite <- Hb; generalize (pressButton P d); intro d'.
    + unfold pressSetClock, pressSetAlarm. split_ifs; reflexivity.
    + unfold pressUp. destruct (ca_state d'); reflexivity.
    + unfold pressDown. destruct (ca_state d'); reflexivity.
    + unfold pressMode. destruct (ca_mode d'); reflexivity.
    + unfold pressSnooze. split_ifs; reflexivity.
    + unfold pressStopAlarm, assign_state_cond. split_ifs; reflexivity.
  - rewrite dispatch_long_eq. destruct b; try reflexivity.
    unfold longSetClock, longSetAlarm. split_ifs; reflexivity.
  - unfold TIMER1_COMPA_vect, assign_state_cond, startBuzzer. simpl.
    split_ifs; reflexivity.
  - unfold TIMER0_OVF_vect, buzzer_timeout, backlight_timeout, startBuzzer.
    simpl. split_ifs; reflexivity.
  - destruct (armed d); reflexivity.
Qed.

Lemma run_buzzer_state (es : list Event) d :
  buzzer_state (run P es d) = buzzer_state d.
Proof.
  revert d. induction es as [|e es IH]; intro d; [reflexivity|].
  change (run P (e :: es) d) with (run P es (step P e d)).
  rewrite IH. apply step_buzzer_state.
Qed.

(** *** The intermittent pattern *)

(** While ringing with the flag clear, an overflow of Timer 0 never
    enables the pulse source, and disables it when the countdown expires. *)
Lemma fast_tick_ringing d :
  ca_state d = RING -> buzzer_state d = false ->
  ca_state (TIMER0_OVF_vect P [] d) = RING /\
  buzzer_state (TIMER0_OVF_vect P [] d) = false /\
  (armed d = false -> armed (TIMER0_OVF_vect P [] d) = false) /\
  (buzzer_counter d = 0 -> armed (TIMER0_OVF_vect P [] d) = false).
Proof.
  intros Hs Hb.
  assert (Hst : ca_state (backlight_timeout d) = RING)
    by (rewrite backlight_timeout_state; exact Hs).
  assert (Hbs : buzzer_state (backlight_timeout d) = false)
    by (unfold backlight_timeout; split_ifs; exact Hb).
  assert (Har : armed (backlight_timeout d) = armed d)
    by (unfold backlight_timeout; split_ifs; reflexivity).
  assert (Hbc : buzzer_counter (backlight_timeout d) = buzzer_counter d)
    by (unfold backlight_timeout; split_ifs; reflexivity).
  unfold TIMER0_OVF_vect. simpl countCheckLong.
  revert Hst Hbs Har Hbc. generalize (backlight_timeout d). intros d' Hst Hbs Har Hbc.
  unfold buzzer_timeout. rewrite Hst, Hbs, Hbc. simpl.
  destruct (Z.eqb_spec (buzzer_counter d) BUZZER_OFF) as [Eo|Eo]; simpl.
  - repeat split; try assumption.
    + intro Ha. rewrite Har. exact Ha.
    + intro E0. rewrite E0 in Eo. discriminate.
  - destruct (Z.ltb_spec 0 (buzzer_counter d)) as [Hp|Hp]; simpl.
    + repeat split; try assumption.
      * intro Ha. change (armed d' = false). rewrite Har. exact Ha.
      * intro E0. lia.
    + repeat split; try assumption; intros _; apply stopBuzzer_armed.
Qed.

Lemma fast_ticks_silent (n : nat) d :
  ca_state d = RING -> buzzer_state d = false -> armed d = false ->
  armed (Nat.iter n (TIMER0_OVF_vect P []) d) = false /\
  ca_state (Nat.iter n (TIMER0_OVF_vect P []) d) = RING /\
  buzzer_state (Nat.iter n (TIMER0_OVF_vect P []) d) = false.
Proof.
  intros Hs Hb Ha. induction n as [|n (IHa & IHs & IHb)]; simpl.
  - repeat split; assumption.
  - destruct (fast_tick_ringing _ IHs IHb) as (Hs' & Hb' & Ha' & _).
    repeat split; auto.
Qed.
End TickFacts.

(** * The claims *)

Section Claims.
Variable P : Platform.
Context {T : Type} `{ClockOps T}.
Implicit Type d : Device T.

(** C8.  For every call of startBuzzer: in RING with a strictly positive
    countdown the countdown is left as it is; in RING with an exhausted
    countdown (zero or below, which includes BUZZER_OFF) it becomes the
    long duration; outside RING it becomes the short duration; in every
    case the Timer 2 compare interrupt is enabled, and nothing else of the
    device changes. *)
Theorem C8_startBuzzer_contract d :
  (ca_state d = RING -> 0 < buzzer_counter d ->
     buzzer_counter (startBuzzer P d) = buzzer_counter d) /\
  (ca_state d = RING -> buzzer_counter d <= 0 ->
     buzzer_counter (startBuzzer P d) = N_BUZZER_LONG P) /\
  (ca_state d <> RING ->
     buzzer_counter (startBuzzer P d) = N_BUZZER_SHORT P) /\
  armed (startBuzzer P d) = true /\
  same_but_buzzer d (startBuzzer P d).
Proof.
  split; [|split; [|split; [|split]]].
  - intros Hs Hpos. unfold startBuzzer. rewrite Hs. simpl.
    destruct (Z.leb_spec (buzzer_counter d) 0) as [Hle|_]; [lia|reflexivity].
  - intros Hs Hle. unfold startBuzzer. rewrite Hs. simpl.
    destruct (Z.leb_spec (buzzer_counter d) 0) as [_|Hgt]; [reflexivity|lia].
  - intro Hs. apply state_eqb_neq in Hs. unfold startBuzzer. rewrite Hs.
    reflexivity.
  - apply startBuzzer_armed.
  - apply startBuzzer_frame.
Qed.

(** C7.  In RING, a short press of Snooze (the generic listener, then
    pressSnooze): if snoozed is false it becomes true, Snooze becomes the
    Alarm value advanced by 5 minutes ([sync] then [setMin 5]) and the
    state becomes IDLE; if snoozed is already true, Snooze is advanced by
    another 5 minutes and Alarm is left as it is. *)
Theorem C7_snooze_press d :
  ca_state d = RING ->
  (ca_snoozed d = false ->
     ca_snoozed (step P (ShortPress SNOOZE) d) = true /\
     ca_snooze (step P (ShortPress SNOOZE) d) =
       setMin 5 (sync (ca_snooze d) (ca_alarm d)) /\
     ca_alarm (step P (ShortPress SNOOZE) d) = ca_alarm d /\
     ca_state (step P (ShortPress SNOOZE) d) = IDLE) /\
  (ca_snoozed d = true ->
     ca_snoozed (step P (ShortPress SNOOZE) d) = true /\
     ca_snooze (step P (ShortPress SNOOZE) d) = setMin 5 (ca_snooze d) /\
     ca_alarm (step P (ShortPress SNOOZE) d) = ca_alarm d /\
     ca_state (step P (ShortPress SNOOZE) d) = IDLE).
Proof.
  intro Hs. simpl step. rewrite dispatch_press_eq.
  pose proof (pressButton_state P d) as Hst.
  destruct (pressButton_fields P d) as (Hsn & Ha & Hz & _ & _).
  revert Hst Hsn Ha Hz. generalize (pressButton P d).
  intros d' Hst Hsn Ha Hz. rewrite Hs in Hst.
  unfold pressSnooze. rewrite Hst, Hsn. simpl.
  split; intro E; rewrite E; simpl; rewrite ?Ha, ?Hz; repeat split.
  rewrite Hsn. exact E.
Qed.

(** C9.  From a device that is IDLE and not snoozed, no sequence of
    switch moves, foreground polls, short and long presses and timer
    interrupts brings the state to SET_CLOCK1 or SET_CLOCK2; on the shared
    button the long-press listener longSetAlarm runs before
    longSetClock. *)
Theorem C9_clock_editing_unreachable (es : list Event) d :
  ca_state d = IDLE -> ca_snoozed d = false ->
  (ca_state (run P es d) <> SET_CLOCK1 /\
   ca_state (run P es d) <> SET_CLOCK2) /\
  listeners_of SET_ALARM (button_long (main_listeners P)) =
    [longSetAlarm; longSetClock].
Proof.
  intros Hs _. split; [|reflexivity].
  apply run_avoids_clock_editing; rewrite Hs; discriminate.
Qed.

(** C10.  With the switch on, the 1-second routine stores IDLE before it
    compares anything: its outcome does not depend on the state it
    started in, the state afterwards is IDLE or RING, and an editing state
    is gone. *)
Theorem C10_tick_overwrites_state d :
  io_switch d = true ->
  TIMER1_COMPA_vect P d = TIMER1_COMPA_vect P (set_state IDLE d) /\
  (ca_state (TIMER1_COMPA_vect P d) = IDLE \/
   ca_state (TIMER1_COMPA_vect P d) = RING) /\
  (is_editing (ca_state d) = true ->
   ca_state (TIMER1_COMPA_vect P d) <> ca_state d).
Proof.
  intro Hsw. split; [apply TIMER1_forgets_state; exact Hsw|].
  pose proof (TIMER1_state_switch_on P d Hsw) as Hio.
  split; [exact Hio|].
  intros He Heq. rewrite <- Heq in He.
  destruct Hio as [E|E]; rewrite E in He; discriminate.
Qed.

(** C3, amended.  For a state and event without a row in the table, and
    whose processing does not overwrite the state through one of the
    conditions written as an assignment, the state is left as it is,
    except that in RING a short press of the shared Set Alarm / Set Clock
    button leaves the device in IDLE. *)
Theorem C3_unlisted_pairs d (te : TableEvent) :
  listed d te = false ->
  assignment_overwrites_state d te = false ->
  ca_state (step P (event_of te) d) =
  if is_shared_press te && state_eqb (ca_state d) RING
  then IDLE
  else ca_state d.
Proof.
  intros Hl Hg. destruct te as [l|l| |]; simpl event_of; simpl step.
  - rewrite dispatch_press_eq.
    destruct l; simpl physical; cbv iota; simpl is_shared_press;
      cbv iota; simpl andb.
    + rewrite pressSetClock_state, pressSetAlarm_state, pressButton_state.
      simpl in Hl. destruct (ca_state d); try discriminate Hl; reflexivity.
    + rewrite pressSetClock_state, pressSetAlarm_state, pressButton_state.
      simpl in Hl. destruct (ca_state d); try discriminate Hl; reflexivity.
    + rewrite pressUp_state. apply pressButton_state.
    + rewrite pressDown_state. apply pressButton_state.
    + rewrite pressMode_state. apply pressButton_state.
    + rewrite pressSnooze_state, pressButton_state.
      simpl in Hl. rewrite Hl. reflexivity.
    + simpl in Hl, Hg. rewrite Hl in Hg. discriminate Hg.
  - rewrite dispatch_long_eq.
    destruct l; simpl physical; cbv iota; try reflexivity;
      simpl in Hl; rewrite longSetClock_state, longSetAlarm_state, Hl;
      simpl; rewrite Hl; reflexivity.
  - simpl in Hl, Hg. rewrite main_switch_check_state.
    destruct (io_switch d); [reflexivity|].
    simpl in Hl, Hg. rewrite andb_true_r in Hl. rewrite Hl in Hg.
    discriminate Hg.
  - simpl in Hl, Hg. destruct (io_switch d) eqn:Hsw.
    + simpl in Hg. apply negb_false_iff, state_eqb_eq in Hg.
      rewrite Hg in Hl |- *. simpl in Hl.
      unfold TIMER1_COMPA_vect, assign_state_cond. simpl. rewrite Hsw.
      destruct (negb (state_code P IDLE =? 0)); [|reflexivity].
      destruct (ca_snoozed d); simpl; rewrite Hl; reflexivity.
    + rewrite TIMER1_switch_off by exact Hsw. reflexivity.
Qed.

(** C4.  In SET_ALARM1 a short press of the Set Alarm button ends in IDLE,
    not in SET_ALARM2: pressSetAlarm stores SET_ALARM2, and pressSetClock,
    registered after it on the same button, finds a state other than
    SET_CLOCK1 and stores IDLE. *)
Theorem C4_short_press_in_SET_ALARM1 d :
  ca_state (pressSetAlarm (pressButton P (set_state SET_ALARM1 d))) =
    SET_ALARM2 /\
  ca_state (step P (ShortPress SET_ALARM) (set_state SET_ALARM1 d)) = IDLE /\
  listeners_of SET_ALARM (button_press (main_listeners P)) =
    [pressSetAlarm; pressSetClock].
Proof.
  split; [|split; [|reflexivity]].
  - rewrite pressSetAlarm_state, pressButton_state. reflexivity.
  - simpl step. rewrite dispatch_press_eq.
    rewrite pressSetClock_state, pressSetAlarm_state, pressButton_state.
    reflexivity.
Qed.

(** C5.  In IDLE a long press of the shared button ends in SET_ALARM1, not
    in SET_CLOCK1: longSetAlarm runs first and leaves IDLE, so the test of
    longSetClock fails. *)
Theorem C5_long_press_in_IDLE d :
  ca_state (step P (LongPress SET_ALARM) (set_state IDLE d)) = SET_ALARM1 /\
  listeners_of SET_ALARM (button_long (main_listeners P)) =
    [longSetAlarm; longSetClock].
Proof.
  split; [|reflexivity].
  simpl step. rewrite dispatch_long_eq.
  rewrite longSetClock_state, longSetAlarm_state. reflexivity.
Qed.
End Claims.

(** ** The claims on concrete devices *)

(** On the 24-hour TimeValue, [sync] followed by [setMin 5] is the alarm
    time plus five minutes, wrapping at midnight. *)
Lemma tv_snooze_is_alarm_plus_5 (z a : TimeValue) :
  0 <= hour a < 24 -> 0 <= minute a < 60 ->
  minute_of_day (setMin 5 (sync z a)) = (minute_of_day a + 5) mod 1440 /\
  second (setMin 5 (sync z a)) = second a /\
  0 <= hour (setMin 5 (sync z a)) < 24 /\
  0 <= minute (setMin 5 (sync z a)) < 60.
Proof.
  intros Hh Hm. unfold minute_of_day. simpl. unfold tv_setMin, tv_sync. simpl.
  repeat split; try (apply Z.mod_pos_bound; lia).
  Z.to_euclidean_division_equations. lia.
Qed.

(** The TimeValue clock of the specification: 3600 ticks from 00:00:00
    give 01:00:00. *)
Lemma tv_tick_3600 : Nat.iter 3600 tick (mkTime 0 0 0) = mkTime 1 0 0.
Proof. vm_compute. reflexivity. Qed.

(** C1.  With the enumerators numbered as declared, the tick that makes
    Clock equal to Alarm (IDLE, switch on, not snoozed, buzzer off) leaves
    the device in IDLE with the buzzer untouched: the condition at
    main.cpp:236 stores IDLE and is false. *)
Theorem C1_tick_match_does_not_ring (n_long n_short n_backlight : Z) :
  ca_state alarm_due = IDLE /\ io_switch alarm_due = true /\
  ca_snoozed alarm_due = false /\
  getValue (tick (ca_clock alarm_due)) = getValue (ca_alarm alarm_due) /\
  ca_state (TIMER1_COMPA_vect (spec_platform n_long n_short n_backlight)
              alarm_due) = IDLE /\
  armed (TIMER1_COMPA_vect (spec_platform n_long n_short n_backlight)
           alarm_due) = false /\
  buzzer_counter (TIMER1_COMPA_vect (spec_platform n_long n_short n_backlight)
                    alarm_due) = BUZZER_OFF.
Proof.
  rewrite TIMER1_IDLE_zero by reflexivity.
  repeat split.
Qed.

(** C2.  The three conditions are assignments.  In SET_ALARM1 the test for
    RING stores RING and is true where an equality test is false and
    stores nothing; in IDLE the test for IDLE is false where an equality
    test is true.  So the switch test and the Stop Alarm handler leave
    SET_ALARM1 for IDLE and clear the snoozed flag, and the 1-second
    routine leaves SET_ALARM1 for IDLE. *)
Theorem C2_guards_are_assignments (n_long n_short n_backlight : Z) :
  assign_state_cond (spec_platform n_long n_short n_backlight) RING
    editing_hours = (true, set_state RING editing_hours) /\
  equality_cond RING editing_hours = (false, editing_hours) /\
  assign_state_cond (spec_platform n_long n_short n_backlight) IDLE
    alarm_due = (false, alarm_due) /\
  equality_cond IDLE alarm_due = (true, alarm_due) /\
  main_switch_check (spec_platform n_long n_short n_backlight)
    (set_switch false editing_hours) =
    set_switch false (set_snoozed false (set_state IDLE editing_hours)) /\
  pressStopAlarm (spec_platform n_long n_short n_backlight) editing_hours =
    set_snoozed false (set_state IDLE editing_hours) /\
  ca_state (TIMER1_COMPA_vect (spec_platform n_long n_short n_backlight)
              editing_hours) = IDLE.
Proof. repeat split. Qed.

(** C3 as stated fails: while the alarm rings, a short press of Set Alarm
    has no row in the table and takes the device from RING to IDLE. *)
Lemma C3_set_alarm_press_while_ringing :
  ~ closed_table_at demo_platform phase_over (T_Short L_SET_ALARM).
Proof.
  unfold closed_table_at. intro Hc.
  specialize (Hc eq_refl). vm_compute in Hc. discriminate Hc.
Qed.

Lemma C3_unlisted_pairs_witness :
  (listed phase_over (T_Short L_SET_ALARM) = false /\
   assignment_overwrites_state phase_over (T_Short L_SET_ALARM) = false /\
   ca_state (step demo_platform (ShortPress SET_ALARM) phase_over) = IDLE) /\
  (listed (power_up true) T_Tick = false /\
   assignment_overwrites_state (power_up true) T_Tick = false /\
   ca_state (step demo_platform Tick1s (power_up true)) = IDLE) /\
  (listed editing_hours (T_Short L_SNOOZE) = false /\
   assignment_overwrites_state editing_hours (T_Short L_SNOOZE) = false /\
   ca_state (step demo_platform (ShortPress SNOOZE) editing_hours) =
     SET_ALARM1) /\
  (listed phase_over (T_Long L_SET_CLOCK) = false /\
   assignment_overwrites_state phase_over (T_Long L_SET_CLOCK) = false /\
   ca_state (step demo_platform (LongPress SET_ALARM) phase_over) = RING).
Proof.
  split; [|split; [|split]]; (split; [reflexivity|]);
    (split; [reflexivity|]).
  - exact (C3_unlisted_pairs demo_platform phase_over (T_Short L_SET_ALARM)
             eq_refl eq_refl).
  - exact (C3_unlisted_pairs demo_platform (power_up true) T_Tick
             eq_refl eq_refl).
  - exact (C3_unlisted_pairs demo_platform editing_hours (T_Short L_SNOOZE)
             eq_refl eq_refl).
  - exact (C3_unlisted_pairs demo_platform phase_over (T_Long L_SET_CLOCK)
             eq_refl eq_refl).
Defined.

(** C6.  After the first phase has run out while ringing, the pulse source
    is disabled and no later overflow of Timer 0 enables it again: the
    flag that should alternate is never written.  With a long duration of
    400 the countdown runs out a second time at the 402nd overflow, and
    the pulse source stays disabled there. *)
Theorem C6_pattern_does_not_alternate (P : Platform) (n : nat) :
  armed phase_over = true /\
  armed (Nat.iter (S n) (TIMER0_OVF_vect P []) phase_over) = false /\
  buzzer_state (Nat.iter (S n) (TIMER0_OVF_vect P []) phase_over) = false /\
  buzzer_counter (Nat.iter 401 (TIMER0_OVF_vect demo_platform []) phase_over)
    = 0 /\
  armed (Nat.iter 402 (TIMER0_OVF_vect demo_platform []) phase_over) = false.
Proof.
  split; [reflexivity|].
  assert (Hgen : armed (Nat.iter (S n) (TIMER0_OVF_vect P []) phase_over)
                   = false /\
                 buzzer_state
                   (Nat.iter (S n) (TIMER0_OVF_vect P []) phase_over)
                   = false).
  { rewrite Nat.iter_succ_r.
    destruct (fast_tick_ringing P phase_over eq_refl eq_refl)
      as (Hs & Hb & _ & Ha).
    specialize (Ha eq_refl).
    destruct (fast_ticks_silent P n _ Hs Hb Ha) as (Ha' & _ & Hb').
    split; assumption. }
  destruct Hgen as [Ha Hb].
  split; [exact Ha|]. split; [exact Hb|].
  split; vm_compute; reflexivity.
Qed.

Lemma C7_snooze_press_witness :
  (ca_state phase_over = RING /\ ca_snoozed phase_over = false /\
   ca_snoozed (step demo_platform (ShortPress SNOOZE) phase_over) = true /\
   ca_snooze (step demo_platform (ShortPress SNOOZE) phase_over) =
     mkTime 6 35 0 /\
   ca_state (step demo_platform (ShortPress SNOOZE) phase_over) = IDLE) /\
  (ca_state ringing_snoozed = RING /\ ca_snoozed ringing_snoozed = true /\
   ca_snooze (step demo_platform (ShortPress SNOOZE) ringing_snoozed) =
     mkTime 6 40 0 /\
   ca_alarm (step demo_platform (ShortPress SNOOZE) ringing_snoozed) =
     mkTime 6 30 0).
Proof.
  split.
  - destruct (C7_snooze_press demo_platform phase_over eq_refl) as [H1 _].
    destruct (H1 eq_refl) as (Ha & Hb & _ & Hc).
    split; [reflexivity|]. split; [reflexivity|].
    split; [exact Ha|]. split; [exact Hb | exact Hc].
  - destruct (C7_snooze_press demo_platform ringing_snoozed eq_refl)
      as [_ H2].
    destruct (H2 eq_refl) as (_ & Hb & Hc & _).
    split; [reflexivity|]. split; [reflexivity|].
    split; [exact Hb | exact Hc].
Defined.

Lemma C8_startBuzzer_contract_witness :
  (ca_state ringing_mid_beep = RING /\ 0 < buzzer_counter ringing_mid_beep /\
   buzzer_counter (startBuzzer demo_platform ringing_mid_beep) = 7) /\
  (ca_state phase_over = RING /\ buzzer_counter phase_over <= 0 /\
   buzzer_counter (startBuzzer demo_platform phase_over) = 400) /\
  (ca_state alarm_due <> RING /\
   buzzer_counter (startBuzzer demo_platform alarm_due) = 40 /\
   armed (startBuzzer demo_platform alarm_due) = true).
Proof.
  split; [|split].
  - split; [reflexivity|]. split; [reflexivity|].
    exact (proj1 (C8_startBuzzer_contract demo_platform ringing_mid_beep)
             eq_refl eq_refl).
  - split; [reflexivity|]. split; [discriminate|].
    refine (proj1 (proj2 (C8_startBuzzer_contract demo_platform phase_over))
              eq_refl _).
    discriminate.
  - assert (Hne : ca_state alarm_due <> RING) by discriminate.
    split; [exact Hne|]. split.
    + exact (proj1 (proj2 (proj2
               (C8_startBuzzer_contract demo_platform alarm_due))) Hne).
    + exact (proj1 (proj2 (proj2 (proj2
               (C8_startBuzzer_contract demo_platform alarm_due))))).
Defined.

Lemma C9_clock_editing_unreachable_witness :
  ca_state (power_up true) = IDLE /\ ca_snoozed (power_up true) = false /\
  ca_state (run demo_platform sample_events (power_up true)) <> SET_CLOCK1 /\
  ca_state (run demo_platform sample_events (power_up true)) <> SET_CLOCK2.
Proof.
  split; [reflexivity|]. split; [reflexivity|].
  exact (proj1 (C9_clock_editing_unreachable demo_platform sample_events
                  (power_up true) eq_refl eq_refl)).
Defined.

Lemma C10_tick_overwrites_state_witness :
  io_switch editing_hours = true /\
  is_editing (ca_state editing_hours) = true /\
  (ca_state (TIMER1_COMPA_vect demo_platform editing_hours) = IDLE \/
   ca_state (TIMER1_COMPA_vect demo_platform editing_hours) = RING) /\
  ca_state (TIMER1_COMPA_vect demo_platform editing_hours) <>
    ca_state editing_hours.
Proof.
  split; [reflexivity|]. split; [reflexivity|].
  destruct (C10_tick_overwrites_state demo_platform editing_hours eq_refl)
    as (_ & Hio & Hed).
  split; [exact Hio | exact (Hed eq_refl)].
Defined.

(** * Further properties of main.cpp *)

(** Case analysis on one integer comparison of the goal, with the fact
    that holds in each case. *)
Ltac cmp_case :=
  match goal with
  | |- context [Z.ltb ?x ?y] => destruct (Z.ltb_spec x y) as [?|?]
  | |- context [Z.leb ?x ?y] => destruct (Z.leb_spec x y) as [?|?]
  | |- context [Z.eqb ?x ?y] => destruct (Z.eqb_spec x y) as [?|?]
  end.

Ltac split_cmp := repeat (cmp_case; simpl).

Ltac unfold_routines :=
  unfold pressSetClock, pressSetAlarm, pressUp, pressDown, pressMode,
    pressSnooze, pressStopAlarm, pressButton, longSetClock, longSetAlarm,
    main_switch_check, TIMER1_COMPA_vect, TIMER0_OVF_vect, TIMER2_COMPA_vect,
    buzzer_timeout, backlight_timeout, startBuzzer, stopBuzzer,
    assign_state_cond.

Section Timers.
Variable P : Platform.
Context {T : Type} `{ClockOps T}.
Implicit Type d : Device T.

(** *** The backlight countdown *)

Lemma fast_tick_backlight d :
  backlight_counter (TIMER0_OVF_vect P [] d) =
    backlight_counter (backlight_timeout d) /\
  io_light (TIMER0_OVF_vect P [] d) = io_light (backlight_timeout d).
Proof.
  unfold TIMER0_OVF_vect, buzzer_timeout, startBuzzer. simpl countCheckLong.
  split_ifs; split; reflexivity.
Qed.

Lemma backlight_counts_down (k : nat) d :
  Z.of_nat k <= backlight_counter d ->
  backlight_counter (Nat.iter k (TIMER0_OVF_vect P []) d) =
    backlight_counter d - Z.of_nat k /\
  io_light (Nat.iter k (TIMER0_OVF_vect P []) d) = io_light d.
Proof.
  induction k as [|k IH]; intro Hk.
  - simpl. split; [lia|reflexivity].
  - destruct IH as [IHc IHl]; [lia|].
    rewrite Nat.iter_succ.
    destruct (fast_tick_backlight (Nat.iter k (TIMER0_OVF_vect P []) d))
      as [Ec El].
    rewrite Ec, El. unfold backlight_timeout. rewrite IHc.
    unfold BACKLIGHT_OFF. split_cmp; try lia.
    split; [lia|exact IHl].
Qed.

Lemma backlight_expires d :
  backlight_counter d = 0 ->
  backlight_counter (TIMER0_OVF_vect P [] d) = BACKLIGHT_OFF /\
  io_light (TIMER0_OVF_vect P [] d) = false.
Proof.
  intro E. destruct (fast_tick_backlight d) as [Ec El]. rewrite Ec, El.
  unfold backlight_timeout. rewrite E. split; reflexivity.
Qed.

Lemma dispatch_press_backlight (b : Button) d :
  io_light (dispatch_press (main_listeners P) b d) = true /\
  backlight_counter (dispatch_press (main_listeners P) b d) = N_BACKLIGHT P.
Proof.
  rewrite dispatch_press_eq.
  destruct d as [s sn m c a z sw l bz r bl bc bs].
  destruct b; unfold_routines; simpl; destruct s, m, sn; simpl;
    split_ifs; split; reflexivity.
Qed.

(** X1.  After a short press of any button the light is on and stays on
    for the next N_BACKLIGHT overflows of Timer 0, the countdown going
    down by one at each; the overflow after that switches the light off
    and sets the countdown to BACKLIGHT_OFF. *)
Theorem X1_backlight_lifetime (b : Button) d :
  0 <= N_BACKLIGHT P ->
  (forall k : nat, Z.of_nat k <= N_BACKLIGHT P ->
     io_light (Nat.iter k (TIMER0_OVF_vect P [])
                 (step P (ShortPress b) d)) = true /\
     backlight_counter (Nat.iter k (TIMER0_OVF_vect P [])
                          (step P (ShortPress b) d)) =
       N_BACKLIGHT P - Z.of_nat k) /\
  io_light (Nat.iter (S (Z.to_nat (N_BACKLIGHT P))) (TIMER0_OVF_vect P [])
              (step P (ShortPress b) d)) = false /\
  backlight_counter
    (Nat.iter (S (Z.to_nat (N_BACKLIGHT P))) (TIMER0_OVF_vect P [])
       (step P (ShortPress b) d)) = BACKLIGHT_OFF.
Proof.
  intro Hn. simpl step.
  destruct (dispatch_press_backlight b d) as [Hl Hc].
  revert Hl Hc. generalize (dispatch_press (main_listeners P) b d).
  intros d1 Hl Hc.
  assert (Hk : forall k : nat, Z.of_nat k <= N_BACKLIGHT P ->
            io_light (Nat.iter k (TIMER0_OVF_vect P []) d1) = true /\
            backlight_counter (Nat.iter k (TIMER0_OVF_vect P []) d1) =
              N_BACKLIGHT P - Z.of_nat k).
  { intros k Hk. destruct (backlight_counts_down k d1) as [Ec El]; [lia|].
    rewrite Ec, El, Hl, Hc. split; reflexivity. }
  split; [exact Hk|].
  rewrite Nat.iter_succ.
  destruct (Hk (Z.to_nat (N_BACKLIGHT P))) as [_ Ec]; [lia|].
  destruct (backlight_expires
              (Nat.iter (Z.to_nat (N_BACKLIGHT P)) (TIMER0_OVF_vect P []) d1))
    as [Eo Ef]; [lia|].
  split; assumption.
Qed.

(** *** The buzzer countdown outside RING *)

Lemma fast_tick_buzzer d :
  buzzer_counter (backlight_timeout d) = buzzer_counter d /\
  armed (backlight_timeout d) = armed d /\
  ca_state (backlight_timeout d) = ca_state d /\
  buzzer_state (backlight_timeout d) = buzzer_state d.
Proof. unfold backlight_timeout. split_ifs; repeat split. Qed.

Lemma buzzer_counts_down (k : nat) d :
  ca_state d <> RING ->
  Z.of_nat k <= buzzer_counter d ->
  buzzer_counter (Nat.iter k (TIMER0_OVF_vect P []) d) =
    buzzer_counter d - Z.of_nat k /\
  armed (Nat.iter k (TIMER0_OVF_vect P []) d) = armed d /\
  ca_state (Nat.iter k (TIMER0_OVF_vect P []) d) = ca_state d.
Proof.
  intro Hs. induction k as [|k IH]; intro Hk.
  - simpl. split; [lia|split; reflexivity].
  - destruct IH as (IHc & IHa & IHs); [lia|].
    rewrite Nat.iter_succ.
    generalize dependent (Nat.iter k (TIMER0_OVF_vect P []) d). intros d' IHc IHa IHs.
    unfold TIMER0_OVF_vect. simpl countCheckLong.
    destruct (fast_tick_buzzer d') as (Ec & Ea & Es & _).
    revert Ec Ea Es. generalize (backlight_timeout d'). intros d2 Ec Ea Es.
    unfold buzzer_timeout. rewrite Ec, IHc. unfold BUZZER_OFF.
    split_cmp; try lia.
    split; [lia|]. split; [rewrite <- IHa, <- Ea|rewrite <- IHs, <- Es];
      reflexivity.
Qed.

Lemma buzzer_expires_outside_RING d :
  ca_state d <> RING -> buzzer_counter d = 0 ->
  buzzer_counter (TIMER0_OVF_vect P [] d) = BUZZER_OFF /\
  armed (TIMER0_OVF_vect P [] d) = false.
Proof.
  intros Hs E. unfold TIMER0_OVF_vect. simpl countCheckLong.
  destruct (fast_tick_buzzer d) as (Ec & _ & Es & _).
  revert Ec Es. generalize (backlight_timeout d). intros d2 Ec Es.
  apply state_eqb_neq in Hs.
  unfold buzzer_timeout. rewrite Ec, E, Es, Hs. simpl.
  split; [reflexivity|apply stopBuzzer_armed].
Qed.

(** X2.  Outside RING a running buzzer countdown [c >= 0] leaves the
    pulse source as it is for [c] overflows of Timer 0, and the next
    overflow disables it and sets the countdown to BUZZER_OFF: a key beep
    ends by itself. *)
Theorem X2_beep_ends d :
  ca_state d <> RING -> 0 <= buzzer_counter d ->
  (forall k : nat, Z.of_nat k <= buzzer_counter d ->
     armed (Nat.iter k (TIMER0_OVF_vect P []) d) = armed d) /\
  armed (Nat.iter (S (Z.to_nat (buzzer_counter d))) (TIMER0_OVF_vect P []) d)
    = false /\
  buzzer_counter
    (Nat.iter (S (Z.to_nat (buzzer_counter d))) (TIMER0_OVF_vect P []) d)
    = BUZZER_OFF.
Proof.
  intros Hs Hc. split.
  - intros k Hk. apply (buzzer_counts_down k d Hs Hk).
  - rewrite Nat.iter_succ.
    destruct (buzzer_counts_down (Z.to_nat (buzzer_counter d)) d Hs)
      as (Ec & _ & Es); [lia|].
    destruct (buzzer_expires_outside_RING
                (Nat.iter (Z.to_nat (buzzer_counter d))
                   (TIMER0_OVF_vect P []) d)) as [Eo Ea].
    + rewrite Es. exact Hs.
    + lia.
    + split; assumption.
Qed.
End Timers.

(** The bit operations stay folded under [simpl]. *)
Arguments SET_BIT : simpl never.
Arguments UNSET_BIT : simpl never.
Arguments Z.testbit : simpl never.

(** Opens the device record and the event, and unfolds the routine that
    processes the event. *)
Ltac open_step d e :=
  destruct d as [s sn m c a z sw l bz r bl bc bs];
  destruct e as [on| |b|b| | |]; simpl step;
  rewrite ?dispatch_press_eq, ?dispatch_long_eq;
  try destruct b; unfold_routines; unfold armed; simpl in *.

(** Case analysis on the comparisons and on the interrupt-enable bit. *)
Ltac flag_case :=
  match goal with
  | |- context [if Z.testbit ?x ?y then _ else _] => destruct (Z.testbit x y)
  | |- context [if ?v then _ else _] => is_var v; destruct v
  | |- context [if negb ?v then _ else _] => is_var v; destruct v
  end.

Ltac split_tests := repeat (simpl; first [cmp_case | flag_case]); simpl.

Section Behaviour.
Variable P : Platform.
Context {T : Type} `{ClockOps T}.
Implicit Type d : Device T.

(** X3.  Only a short press turns the light on: an event of any other
    kind leaves a dark display dark. *)
Theorem X3_light_only_by_press (e : Event) d :
  is_short_press e = false -> io_light d = false ->
  io_light (step P e d) = false.
Proof.
  intros He Hl. open_step d e; try discriminate He; subst l;
    destruct s; split_tests; reflexivity.
Qed.

(** *** The pattern flag *)

Lemma countCheckLong_buzzer (held : list Button) d :
  armed (countCheckLong P held d) = armed d /\
  buzzer_state (countCheckLong P held d) = buzzer_state d.
Proof.
  unfold countCheckLong. revert d.
  induction held as [|b bs IH]; intro d; simpl; [split; reflexivity|].
  destruct (IH (dispatch_long (main_listeners P) b d)) as [Ea Eb].
  rewrite Ea, Eb, dispatch_long_eq.
  destruct b; try (split; reflexivity).
  unfold longSetClock, longSetAlarm. split_ifs; split; reflexivity.
Qed.

Lemma TIMER0_never_arms (held : list Button) d :
  buzzer_state d = false -> armed d = false ->
  armed (TIMER0_OVF_vect P held d) = false.
Proof.
  intros Hb Ha. unfold TIMER0_OVF_vect.
  destruct (countCheckLong_buzzer held d) as [Ea Eb].
  rewrite <- Ea in Ha. rewrite <- Eb in Hb.
  revert Ha Hb. generalize (countCheckLong P held d). intros d1 Ha Hb.
  destruct (fast_tick_buzzer d1) as (_ & Ea' & _ & Eb').
  rewrite <- Ea' in Ha. rewrite <- Eb' in Hb.
  revert Ha Hb. generalize (backlight_timeout d1). intros d2 Ha Hb.
  unfold buzzer_timeout. rewrite Hb.
  split_ifs; try exact Ha; apply stopBuzzer_armed.
Qed.

(** X4.  No event writes the flag buzzer_state; once it is false (as at
    power-up) it is false after every sequence of events, and then the
    Timer 0 routine, whichever long presses it dispatches, never enables
    the pulse source. *)
Theorem X4_pattern_flag_stuck (es : list Event) (held : list Button) d :
  buzzer_state d = false ->
  buzzer_state (run P es d) = false /\
  (armed (run P es d) = false ->
   armed (TIMER0_OVF_vect P held (run P es d)) = false).
Proof.
  intro Hb.
  assert (Hb' : buzzer_state (run P es d) = false)
    by (rewrite run_buzzer_state; exact Hb).
  split; [exact Hb'|]. intro Ha. apply TIMER0_never_arms; assumption.
Qed.

(** X5.  When RING converts to a non-zero integer, a short press of Stop
    Alarm in any state leaves the device in IDLE with the snoozed flag
    clear and the pulse source disabled, the key beep of the same press
    included. *)
Theorem X5_stop_alarm_silences d :
  state_code P RING <> 0 ->
  ca_state (step P (ShortPress STOP_ALARM) d) = IDLE /\
  ca_snoozed (step P (ShortPress STOP_ALARM) d) = false /\
  armed (step P (ShortPress STOP_ALARM) d) = false.
Proof.
  intro Hr. simpl step. rewrite dispatch_press_eq.
  unfold pressStopAlarm, assign_state_cond.
  destruct (Z.eqb_spec (state_code P RING) 0) as [E|_]; [contradiction|].
  simpl. repeat split. apply stopBuzzer_armed.
Qed.

Lemma UNSET_BIT_twice (r b : Z) : UNSET_BIT (UNSET_BIT r b) b = UNSET_BIT r b.
Proof. unfold UNSET_BIT. rewrite <- Z.land_assoc, Z.land_diag. reflexivity. Qed.

Lemma SET_BIT_twice (r b : Z) : SET_BIT (SET_BIT r b) b = SET_BIT r b.
Proof. unfold SET_BIT. rewrite <- Z.lor_assoc, Z.lor_diag. reflexivity. Qed.

(** X6.  The switch test of the foreground loop is idempotent; with the
    switch off and RING non-zero it leaves the device in IDLE, not
    snoozed, with the pulse source disabled, whatever the state was. *)
Theorem X6_switch_off_poll d :
  main_switch_check P (main_switch_check P d) = main_switch_check P d /\
  (io_switch d = false -> state_code P RING <> 0 ->
   ca_state (main_switch_check P d) = IDLE /\
   ca_snoozed (main_switch_check P d) = false /\
   armed (main_switch_check P d) = false).
Proof.
  split.
  - destruct d as [s sn m c a z sw l bz r bl bc bs].
    unfold main_switch_check, assign_state_cond, stopBuzzer. simpl.
    destruct sw; simpl; [reflexivity|].
    destruct (state_code P RING =? 0); simpl; [reflexivity|].
    rewrite UNSET_BIT_twice. reflexivity.
  - intros Hsw Hr. unfold main_switch_check, assign_state_cond.
    rewrite Hsw. simpl.
    destruct (Z.eqb_spec (state_code P RING) 0) as [E|_]; [contradiction|].
    simpl. repeat split. apply stopBuzzer_armed.
Qed.

(** *** Mode and clock over event sequences *)

Lemma step_mode (e : Event) d :
  ca_mode (step P e d) =
  if is_mode_press e then toggle_mode (ca_mode d) else ca_mode d.
Proof.
  open_step d e; destruct s; split_tests; reflexivity.
Qed.

(** X7.  The display mode after any sequence of events is the initial
    mode toggled once per short press of Mode: nothing else changes it,
    and two presses restore it. *)
Theorem X7_mode_parity (es : list Event) d :
  ca_mode (run P es d) =
  Nat.iter (count_mode_presses es) toggle_mode (ca_mode d).
Proof.
  revert d. induction es as [|e es IH]; intro d; [reflexivity|].
  change (run P (e :: es) d) with (run P es (step P e d)).
  rewrite IH, step_mode. unfold count_mode_presses. simpl filter.
  destruct (is_mode_press e); simpl length; [|reflexivity].
  rewrite Nat.iter_succ_r. reflexivity.
Qed.

Lemma step_clock (e : Event) d :
  ca_state d <> SET_CLOCK1 -> ca_state d <> SET_CLOCK2 ->
  ca_clock (step P e d) =
  if is_tick e then tick (ca_clock d) else ca_clock d.
Proof.
  intros H1 H2. open_step d e;
    destruct s; try congruence; split_tests; reflexivity.
Qed.

(** X8.  From a state other than SET_CLOCK1 and SET_CLOCK2, after any
    sequence of events the clock is the initial clock ticked once per
    1-second interrupt: no button changes it. *)
Theorem X8_clock_counts_ticks (es : list Event) d :
  ca_state d <> SET_CLOCK1 -> ca_state d <> SET_CLOCK2 ->
  ca_clock (run P es d) = Nat.iter (count_ticks es) tick (ca_clock d).
Proof.
  revert d. induction es as [|e es IH]; intros d H1 H2; [reflexivity|].
  change (run P (e :: es) d) with (run P es (step P e d)).
  destruct (step_avoids_clock_editing P e d H1 H2) as [H1' H2'].
  rewrite (IH _ H1' H2'), (step_clock e d H1 H2).
  unfold count_ticks. simpl filter.
  destruct (is_tick e); simpl length; [|reflexivity].
  rewrite Nat.iter_succ_r. reflexivity.
Qed.
(** *** States and fields over event sequences *)

Lemma step_stays_reachable (e : Event) d :
  ca_state d = IDLE \/ ca_state d = SET_ALARM1 \/ ca_state d = RING ->
  ca_state (step P e d) = IDLE \/ ca_state (step P e d) = SET_ALARM1 \/
  ca_state (step P e d) = RING.
Proof.
  intro Hs. open_step d e; destruct s;
    try (destruct Hs as [Hs|[Hs|Hs]]; discriminate Hs);
    split_tests; auto.
Qed.

(** X9.  From IDLE, after any sequence of events the state is IDLE,
    SET_ALARM1 or RING: SET_ALARM2, like the clock-editing states, is
    never the state in which an event leaves the device. *)
Theorem X9_states_after_events (es : list Event) d :
  ca_state d = IDLE ->
  ca_state (run P es d) = IDLE \/ ca_state (run P es d) = SET_ALARM1 \/
  ca_state (run P es d) = RING.
Proof.
  intro Hs.
  assert (Hr : ca_state d = IDLE \/ ca_state d = SET_ALARM1 \/
               ca_state d = RING) by (left; exact Hs).
  clear Hs. revert d Hr.
  induction es as [|e es IH]; intros d Hr; [exact Hr|].
  change (run P (e :: es) d) with (run P es (step P e d)).
  apply IH, step_stays_reachable, Hr.
Qed.

Lemma step_never_rings (e : Event) d :
  state_code P IDLE = 0 -> state_code P RING <> 0 ->
  ca_state d <> RING -> ca_state (step P e d) <> RING.
Proof.
  intros Hi Hr Hs. open_step d e; destruct s; try congruence;
    split_tests; congruence.
Qed.

(** X10.  When IDLE converts to zero and RING does not, as with the
    enumerators numbered from zero in the order IDLE ... RING, no event
    leaves the device in RING: from a state other than RING, the state
    after any sequence of events is not RING. *)
Theorem X10_never_rings (es : list Event) d :
  state_code P IDLE = 0 -> state_code P RING <> 0 ->
  ca_state d <> RING -> ca_state (run P es d) <> RING.
Proof.
  intros Hi Hr. revert d.
  induction es as [|e es IH]; intros d Hs; [exact Hs|].
  change (run P (e :: es) d) with (run P es (step P e d)).
  apply IH, step_never_rings; assumption.
Qed.

(** X11.  The alarm time is written only by a short press of Up or Down
    in SET_ALARM1 or SET_ALARM2: every other event, and these presses in
    every other state, leave it as it is.  In SET_ALARM1 the press moves
    the hour by one, in SET_ALARM2 the minute. *)
Theorem X11_alarm_writes (e : Event) d :
  (is_alarm_editing (ca_state d) && is_up_down_press e = false ->
   ca_alarm (step P e d) = ca_alarm d) /\
  (ca_state d = SET_ALARM1 ->
   ca_alarm (step P (ShortPress UP) d) = setHour 1 (ca_alarm d) /\
   ca_alarm (step P (ShortPress DOWN) d) = setHour (-1) (ca_alarm d)) /\
  (ca_state d = SET_ALARM2 ->
   ca_alarm (step P (ShortPress UP) d) = setMin 1 (ca_alarm d) /\
   ca_alarm (step P (ShortPress DOWN) d) = setMin (-1) (ca_alarm d)).
Proof.
  split; [|split].
  - intro Hf. open_step d e; destruct s; try discriminate Hf;
      split_tests; reflexivity.
  - intro Hs. simpl step. rewrite !dispatch_press_eq.
    pose proof (pressButton_state P d) as Hst.
    destruct (pressButton_fields P d) as (_ & Ha & _).
    revert Hst Ha. generalize (pressButton P d). intros d' Hst Ha.
    rewrite Hs in Hst. unfold pressUp, pressDown. rewrite Hst, Ha.
    split; reflexivity.
  - intro Hs. simpl step. rewrite !dispatch_press_eq.
    pose proof (pressButton_state P d) as Hst.
    destruct (pressButton_fields P d) as (_ & Ha & _).
    revert Hst Ha. generalize (pressButton P d). intros d' Hst Ha.
    rewrite Hs in Hst. unfold pressUp, pressDown. rewrite Hst, Ha.
    split; reflexivity.
Qed.

(** X12.  The snooze time is written, and the snoozed flag set, only by
    a short press of Snooze in RING: any other event, and a Snooze press
    in any other state, leaves the snooze time as it is and does not set
    the flag. *)
Theorem X12_snooze_writes (e : Event) d :
  is_snooze_press e && state_eqb (ca_state d) RING = false ->
  ca_snooze (step P e d) = ca_snooze d /\
  (ca_snoozed d = false -> ca_snoozed (step P e d) = false).
Proof.
  intro Hf. open_step d e; destruct s; try discriminate Hf;
    split_tests; split; congruence.
Qed.

(** X13.  A long press does nothing unless it is a long press of the
    Set Alarm button in IDLE: no other button has a long-press listener,
    and both listeners of Set Alarm test for IDLE. *)
Theorem X13_long_press_ignored (b : Button) d :
  b <> SET_ALARM \/ ca_state d <> IDLE ->
  step P (LongPress b) d = d.
Proof.
  intro Hc. simpl step. rewrite dispatch_long_eq.
  destruct b; try reflexivity.
  destruct Hc as [Hc|Hc]; [congruence|].
  apply state_eqb_neq in Hc.
  unfold longSetAlarm. rewrite Hc. unfold longSetClock. rewrite Hc.
  reflexivity.
Qed.

(** X14.  startBuzzer is idempotent: a second call straight after the
    first changes nothing. *)
Theorem X14_startBuzzer_idempotent d :
  startBuzzer P (startBuzzer P d) = startBuzzer P d.
Proof.
  destruct d as [s sn m c a z sw l bz r bl bc bs].
  unfold startBuzzer.
  destruct s; simpl; try (rewrite SET_BIT_twice; reflexivity).
  destruct (bc <=? 0) eqn:Hbc; simpl.
  - destruct (N_BUZZER_LONG P <=? 0); simpl;
      rewrite SET_BIT_twice; reflexivity.
  - rewrite Hbc. simpl. rewrite SET_BIT_twice. reflexivity.
Qed.


End Behaviour.

(** ** The further properties on concrete devices *)

Lemma X1_backlight_lifetime_witness :
  0 <= N_BACKLIGHT demo_platform /\
  io_light (Nat.iter 3 (TIMER0_OVF_vect demo_platform [])
              (step demo_platform (ShortPress UP) (power_up true))) = true /\
  io_light
    (Nat.iter (S (Z.to_nat (N_BACKLIGHT demo_platform)))
       (TIMER0_OVF_vect demo_platform [])
       (step demo_platform (ShortPress UP) (power_up true))) = false.
Proof.
  assert (Hn : 0 <= N_BACKLIGHT demo_platform) by (vm_compute; discriminate).
  destruct (X1_backlight_lifetime demo_platform UP (power_up true) Hn)
    as (Hk & Hoff & _).
  split; [exact Hn|]. split; [|exact Hoff].
  apply (Hk 3%nat). vm_compute. discriminate.
Defined.

Lemma X2_beep_ends_witness :
  ca_state after_key_press <> RING /\ 0 <= buzzer_counter after_key_press /\
  armed
    (Nat.iter (S (Z.to_nat (buzzer_counter after_key_press)))
       (TIMER0_OVF_vect demo_platform []) after_key_press) = false.
Proof.
  assert (Hs : ca_state after_key_press <> RING) by (vm_compute; discriminate).
  assert (Hc : 0 <= buzzer_counter after_key_press)
    by (vm_compute; discriminate).
  split; [exact Hs|]. split; [exact Hc|].
  exact (proj1 (proj2 (X2_beep_ends demo_platform after_key_press Hs Hc))).
Defined.

Lemma X3_light_only_by_press_witness :
  is_short_press Tick1s = false /\ io_light (power_up true) = false /\
  io_light (step demo_platform Tick1s (power_up true)) = false.
Proof.
  split; [reflexivity|]. split; [reflexivity|].
  exact (X3_light_only_by_press demo_platform Tick1s (power_up true)
           eq_refl eq_refl).
Defined.

Lemma X4_pattern_flag_stuck_witness :
  buzzer_state (power_up true) = false /\
  buzzer_state (run demo_platform sample_events (power_up true)) = false.
Proof.
  split; [reflexivity|].
  exact (proj1 (X4_pattern_flag_stuck demo_platform sample_events [SET_ALARM]
                  (power_up true) eq_refl)).
Defined.

Lemma X5_stop_alarm_silences_witness :
  state_code demo_platform RING <> 0 /\
  ca_state (step demo_platform (ShortPress STOP_ALARM) ringing_snoozed)
    = IDLE /\
  ca_snoozed (step demo_platform (ShortPress STOP_ALARM) ringing_snoozed)
    = false /\
  armed (step demo_platform (ShortPress STOP_ALARM) ringing_snoozed) = false.
Proof.
  assert (Hr : state_code demo_platform RING <> 0)
    by (vm_compute; discriminate).
  split; [exact Hr|].
  exact (X5_stop_alarm_silences demo_platform ringing_snoozed Hr).
Defined.

Lemma X6_switch_off_poll_witness :
  io_switch (set_switch false ringing_snoozed) = false /\
  state_code demo_platform RING <> 0 /\
  ca_state (main_switch_check demo_platform
              (set_switch false ringing_snoozed)) = IDLE /\
  ca_snoozed (main_switch_check demo_platform
                (set_switch false ringing_snoozed)) = false /\
  armed (main_switch_check demo_platform
           (set_switch false ringing_snoozed)) = false.
Proof.
  assert (Hr : state_code demo_platform RING <> 0)
    by (vm_compute; discriminate).
  split; [reflexivity|]. split; [exact Hr|].
  exact (proj2 (X6_switch_off_poll demo_platform
                  (set_switch false ringing_snoozed)) eq_refl Hr).
Defined.

Lemma X8_clock_counts_ticks_witness :
  ca_state (power_up true) <> SET_CLOCK1 /\
  ca_state (power_up true) <> SET_CLOCK2 /\
  ca_clock (run demo_platform sample_events (power_up true)) =
    Nat.iter (count_ticks sample_events) tick (ca_clock (power_up true)).
Proof.
  assert (H1 : ca_state (power_up true) <> SET_CLOCK1)
    by (vm_compute; discriminate).
  assert (H2 : ca_state (power_up true) <> SET_CLOCK2)
    by (vm_compute; discriminate).
  split; [exact H1|]. split; [exact H2|].
  exact (X8_clock_counts_ticks demo_platform sample_events (power_up true)
           H1 H2).
Defined.

Lemma X9_states_after_events_witness :
  ca_state (power_up true) = IDLE /\
  (ca_state (run demo_platform sample_events (power_up true)) = IDLE \/
   ca_state (run demo_platform sample_events (power_up true)) = SET_ALARM1 \/
   ca_state (run demo_platform sample_events (power_up true)) = RING).
Proof.
  split; [reflexivity|].
  exact (X9_states_after_events demo_platform sample_events (power_up true)
           eq_refl).
Defined.

Lemma X10_never_rings_witness :
  state_code demo_platform IDLE = 0 /\ state_code demo_platform RING <> 0 /\
  ca_state alarm_due <> RING /\
  ca_state (run demo_platform [Tick1s; TickFast; Tick1s] alarm_due) <> RING.
Proof.
  assert (Hr : state_code demo_platform RING <> 0)
    by (vm_compute; discriminate).
  assert (Hs : ca_state alarm_due <> RING) by (vm_compute; discriminate).
  split; [reflexivity|]. split; [exact Hr|]. split; [exact Hs|].
  exact (X10_never_rings demo_platform [Tick1s; TickFast; Tick1s] alarm_due
           eq_refl Hr Hs).
Defined.

Lemma X11_alarm_writes_witness :
  (is_alarm_editing (ca_state alarm_due) && is_up_down_press (ShortPress UP)
     = false /\
   ca_alarm (step demo_platform (ShortPress UP) alarm_due) = mkTime 6 30 0) /\
  (ca_state editing_hours = SET_ALARM1 /\
   ca_alarm (step demo_platform (ShortPress UP) editing_hours) =
     mkTime 7 30 0) /\
  (ca_state (set_state SET_ALARM2 alarm_due) = SET_ALARM2 /\
   ca_alarm (step demo_platform (ShortPress DOWN)
               (set_state SET_ALARM2 alarm_due)) = mkTime 6 29 0).
Proof.
  split; [|split].
  - split; [reflexivity|].
    exact (proj1 (X11_alarm_writes demo_platform (ShortPress UP) alarm_due)
             eq_refl).
  - split; [reflexivity|].
    exact (proj1 (proj1 (proj2 (X11_alarm_writes demo_platform Tick1s
                                  editing_hours)) eq_refl)).
  - split; [reflexivity|].
    exact (proj2 (proj2 (proj2 (X11_alarm_writes demo_platform Tick1s
                                  (set_state SET_ALARM2 alarm_due)))
                    eq_refl)).
Defined.

Lemma X12_snooze_writes_witness :
  is_snooze_press (ShortPress SNOOZE) && state_eqb (ca_state alarm_due) RING
    = false /\
  ca_snoozed alarm_due = false /\
  ca_snooze (step demo_platform (ShortPress SNOOZE) alarm_due) =
    ca_snooze alarm_due /\
  ca_snoozed (step demo_platform (ShortPress SNOOZE) alarm_due) = false.
Proof.
  split; [reflexivity|]. split; [reflexivity|].
  destruct (X12_snooze_writes demo_platform (ShortPress SNOOZE) alarm_due
              eq_refl) as [Hz Hf].
  split; [exact Hz | exact (Hf eq_refl)].
Defined.

Lemma X13_long_press_ignored_witness :
  (SET_ALARM <> SET_ALARM \/ ca_state phase_over <> IDLE) /\
  step demo_platform (LongPress SET_ALARM) phase_over = phase_over.
Proof.
  assert (Hc : SET_ALARM <> SET_ALARM \/ ca_state phase_over <> IDLE)
    by (right; vm_compute; discriminate).
  split; [exact Hc|].
  exact (X13_long_press_ignored demo_platform SET_ALARM phase_over Hc).
Defined.

